(** * run_workflow.py: the Attune AI GitHub Action runner

    A shallow embedding of [src/run_workflow.py] and the properties of its
    orchestration contract.

    Modelling conventions.
    - A Python [str] is a Rocq [string] whose characters are code points
      below 256; [nl] is the line feed written "\n" in the source.
    - A Python [int] is a [Z]; [str(n)] is stdpp's [pretty].
    - A [dict] with string keys is a [gmap string pyval].
    - A [pathlib.Path] is a [PosixPath]: a root and the list of components,
      as [pathlib] parses them on POSIX.
    - Effects are a trace of [event]s (file writes, stream output, calls of
      the collaborators) next to the value returned or the exception raised;
      the file system after a run is the trace replayed on the file system
      before it.
    - The collaborators (the [attune] package, the [git] subprocess, the
      process environment) are the fields of a [World]; a collaborator call
      either gives a value or fails with an instance of [Exception], of which
      only the text [str(e)] is kept.  Writing to a file and creating the
      output directory succeed.
    - [parse_args] is not modelled: a run starts from the [Namespace] it
      returns. *)

From Stdlib Require Import Ascii.
From stdpp Require Import gmap strings list fin_maps pretty.

Local Open Scope string_scope.
Local Open Scope Z_scope.

(** ** Python text and values *)

Module Py.

(** The line feed, "\n". *)
Definition nl : string := String "010"%char "".

(** [str.isspace] on one character, for code points below 256. *)
Definition is_space (c : ascii) : bool :=
  let n := N_of_ascii c in
  ((9 <=? n) && (n <=? 13) || (28 <=? n) && (n <=? 32)
   || (n =? 133) || (n =? 160))%N.

Definition is_empty (s : string) : bool :=
  match s with EmptyString => true | String _ _ => false end.

Fixpoint lstrip (s : string) : string :=
  match s with
  | EmptyString => EmptyString
  | String c s' => if is_space c then lstrip s' else s
  end.

Fixpoint rstrip (s : string) : string :=
  match s with
  | EmptyString => EmptyString
  | String c s' =>
      let r := rstrip s' in
      if is_space c && is_empty r then EmptyString else String c r
  end.

(** [s.strip()] *)
Definition strip (s : string) : string := rstrip (lstrip s).

(** [s.split(sep)] for a separator of one character: never the empty list. *)
Fixpoint split (sep : ascii) (s : string) : list string :=
  match s with
  | EmptyString => [EmptyString]
  | String c s' =>
      if Ascii.eqb c sep then EmptyString :: split sep s'
      else match split sep s' with
           | h :: t => String c h :: t
           | [] => [String c EmptyString]
           end
  end.

(** [sep.join(l)] *)
Definition join (sep : string) (l : list string) : string := String.concat sep l.

(** An f-string: the concatenation of its literal pieces and formatted fields. *)
Definition fstring (pieces : list string) : string := String.concat "" pieces.

(** The values the script stores in its result mapping and formats. *)
Inductive pyval : Type :=
  | PyNone
  | PyBool (b : bool)
  | PyInt (n : Z)
  | PyStr (s : string).

#[global] Instance pyval_eq_dec : EqDecision pyval.
Proof. solve_decision. Defined.

(** [str(v)], which is also what [f"{v}"] inserts. *)
Definition str (v : pyval) : string :=
  match v with
  | PyNone => "None"
  | PyBool true => "True"
  | PyBool false => "False"
  | PyInt n => pretty n
  | PyStr s => s
  end.

(** Truth value of [v], as [if v] tests it. *)
Definition truthy (v : pyval) : bool :=
  match v with
  | PyNone => false
  | PyBool b => b
  | PyInt n => negb (n =? 0)
  | PyStr s => negb (is_empty s)
  end.

(** [d.get(k, default)] *)
Definition get (d : gmap string pyval) (k : string) (default : pyval) : pyval :=
  match d !! k with Some v => v | None => default end.

End Py.

(** ** pathlib on POSIX *)

Module Pathlib.

Record PosixPath : Type := { root : string; parts : list string }.

#[global] Instance PosixPath_eq_dec : EqDecision PosixPath.
Proof. solve_decision. Defined.

#[global] Instance PosixPath_countable : Countable PosixPath.
Proof.
  refine (inj_countable' (fun p => (root p, parts p))
                         (fun t => {| root := t.1; parts := t.2 |}) _).
  by intros [].
Defined.

(** [posixpath.splitroot]: exactly two leading slashes are kept as the root,
    one or three and more collapse to one. *)
Definition splitroot (p : string) : string * string :=
  match p with
  | String "/" rest =>
      match rest with
      | String "/" rest2 =>
          match rest2 with
          | String "/" _ => ("/", rest)
          | _ => ("//", rest2)
          end
      | _ => ("/", rest)
      end
  | _ => ("", p)
  end.

(** The components of a relative part: empty ones and "." are dropped. *)
Definition parse_parts (rel : string) : list string :=
  filter (fun x => x ≠ "" ∧ x ≠ ".") (Py.split "/" rel).

(** [Path(s)] *)
Definition Path (s : string) : PosixPath :=
  let '(r, rel) := splitroot s in {| root := r; parts := parse_parts rel |}.

(** [str(p)] *)
Definition str (p : PosixPath) : string :=
  let body := Py.join "/" (parts p) in
  if Py.is_empty (root p) then (if Py.is_empty body then "." else body)
  else root p +:+ body.

(** [p / seg] *)
Definition joinpath (p : PosixPath) (seg : string) : PosixPath :=
  match seg with
  | String "/" _ => Path seg
  | _ => {| root := root p; parts := parts p ++ parse_parts seg |}
  end.

End Pathlib.

Abbreviation PosixPath := Pathlib.PosixPath.
Abbreviation Path := Pathlib.Path.
Infix "</>" := Pathlib.joinpath (at level 40, left associativity).
Import Py (nl, fstring, pyval, PyNone, PyBool, PyInt, PyStr).

(** ** Effects: the trace, the file system and the exception monad *)

(** A call of the external engine: [engine.run(workflow, files=..., output_format=...)];
    [files] is [None] when the keyword is not passed. *)
Record engine_call : Type := {
  call_workflow : string;
  call_files : option (list string);
  call_output_format : string;
}.

Inductive event : Type :=
  | Mkdir (p : PosixPath)                  (* p.mkdir(parents=True, exist_ok=True) *)
  | WriteText (p : PosixPath) (data : string)   (* p.write_text(data) *)
  | Append (p : PosixPath) (data : string)      (* f.write(data), f opened with mode "a" *)
  | Stdout (line : string)                 (* print(line) *)
  | Stderr (line : string)                 (* print(line, file=sys.stderr) *)
  | ImportModule (name : string)           (* from name import ... *)
  | NewEngine                              (* WorkflowEngine(ci_mode=True) *)
  | GetWorkflow (name : string)            (* get_workflow(name) *)
  | SubprocessRun (argv : list string)     (* subprocess.run(argv, ...) *)
  | EngineRun (c : engine_call)            (* engine.run(...) *)
  | Traceback (text : string).             (* the interpreter reporting an uncaught exception *)

(** The files of the file system, by path. *)
Abbreviation filesystem := (gmap PosixPath string).

Definition apply_event (fs : filesystem) (e : event) : filesystem :=
  match e with
  | WriteText p data => <[p := data]> fs
  | Append p data => <[p := default "" (fs !! p) +:+ data]> fs
  | _ => fs
  end.

(** The file system after the events of [t] happened in order on [fs]. *)
Definition replay (fs : filesystem) (t : list event) : filesystem :=
  foldl apply_event fs t.

(** What was printed on the error stream, and on standard output. *)
Definition stderr_of (t : list event) : list string :=
  omap (fun e => match e with Stderr l => Some l | _ => None end) t.

Definition stdout_of (t : list event) : list string :=
  omap (fun e => match e with Stdout l => Some l | _ => None end) t.

(** The engine calls made, the files written with [write_text], and what was
    appended to the file at [p]. *)
Definition engine_calls (t : list event) : list engine_call :=
  omap (fun e => match e with EngineRun c => Some c | _ => None end) t.

Definition files_written (t : list event) : list PosixPath :=
  omap (fun e => match e with WriteText p _ => Some p | _ => None end) t.

Definition appended_to (p : PosixPath) (t : list event) : list string :=
  omap (fun e => match e with
                 | Append q data => if decide (q = p) then Some data else None
                 | _ => None
                 end) t.

(** What a Python computation raises: an instance of [Exception] with its
    text [str(e)], or the [SystemExit] of [sys.exit(code)], which
    [except Exception] does not catch. *)
Inductive raised : Type :=
  | Exception (text : string)
  | SystemExit (code : Z).

Inductive completion (A : Type) : Type :=
  | Returns (a : A)
  | Raises (e : raised).
Arguments Returns {A} a.
Arguments Raises {A} e.

(** A computation: the events it caused and how it completed. *)
Definition M (A : Type) : Type := list event * completion A.

#[global] Instance M_ret : MRet M := fun A a => ([], Returns a).

#[global] Instance M_bind : MBind M := fun A B k m =>
  match m with
  | (t, Returns a) => let '(t', c) := k a in ((t ++ t')%list, c)
  | (t, Raises e) => (t, Raises e)
  end.

Definition raise {A} (e : raised) : M A := ([], Raises e).
Definition emit (e : event) : M unit := ([e], Returns tt).

(** [try: m  except Exception as e: handler(e)], whose value on success goes to [k]. *)
Definition try_except {A B} (m : M A) (handler : string -> M B) (k : A -> M B) : M B :=
  match m with
  | (t, Returns a) => let '(t', c) := k a in ((t ++ t')%list, c)
  | (t, Raises (Exception text)) => let '(t', c) := handler text in ((t ++ t')%list, c)
  | (t, Raises (SystemExit code)) => (t, Raises (SystemExit code))
  end.

(** A call of a collaborator: it gives a value or fails with an [Exception]. *)
Inductive call (A : Type) : Type :=
  | Gives (a : A)
  | Fails (text : string).
Arguments Gives {A} a.
Arguments Fails {A} text.

Definition perform {A} (e : event) (c : call A) : M A :=
  match c with
  | Gives a => ([e], Returns a)
  | Fails text => ([e], Raises (Exception text))
  end.

Definition write_text (p : PosixPath) (data : string) : M unit := emit (WriteText p data).
Definition print (line : string) : M unit := emit (Stdout line).
Definition print_stderr (line : string) : M unit := emit (Stderr line).
Definition sys_exit {A} (code : Z) : M A := raise (SystemExit code).

(** [d[k]], raising [KeyError] when the key is missing. *)
Definition getitem {V} (d : gmap string V) (k : string) : M V :=
  match d !! k with
  | Some v => mret v
  | None => raise (Exception ("'" +:+ k +:+ "'"))
  end.

(** [v > 0]; Python orders [None] and a [str] against an [int] with a [TypeError]. *)
Definition gt_zero (v : pyval) : M bool :=
  match v with
  | PyInt n => mret (0 <? n)
  | PyBool b => mret b
  | PyNone => raise (Exception "'>' not supported between instances of 'NoneType' and 'int'")
  | PyStr _ => raise (Exception "'>' not supported between instances of 'str' and 'int'")
  end.

(** ** The collaborators *)

(** Modelled from the spec: the report object of the external engine, whose
    class is not part of this repository.  The spec lists what it exposes:
    issue, critical, warning and info counts, a cost tier identifier, a
    cost-savings estimate, a markdown rendering and, for the release
    workflow, security status, test coverage, changelog presence and gate
    pass and total counts.  The counts are integers; the other attributes are
    only formatted or tested for truth, and are left as Python values. *)
Record Report : Type := {
  issue_count : Z;
  critical_count : Z;
  warning_count : Z;
  info_count : Z;
  tier_used : pyval;
  cost_savings : pyval;
  to_markdown : string;
  security_status : pyval;
  test_coverage : pyval;
  changelog : pyval;
  gates_passed : Z;
  gates_total : Z;
}.

(** [subprocess.CompletedProcess], with [capture_output=True, text=True]. *)
Record CompletedProcess : Type := {
  returncode : Z;
  stdout : string;
  stderr : string;
}.

(** Everything outside the script that a run depends on. *)
Record World : Type := {
  environ : gmap string string;                 (* os.environ *)
  import_module : string -> call unit;          (* importing an attune module *)
  WorkflowEngine : call unit;                   (* WorkflowEngine(ci_mode=True) *)
  get_workflow : string -> call string;         (* registry lookup; the workflow object, by label *)
  subprocess_run : list string -> call CompletedProcess;
  engine_run : engine_call -> call Report;      (* engine.run(...) *)
}.

(** ** The script *)

(** The parsed command line, the [argparse.Namespace] that [parse_args]
    returns: [--workflow], [--config], [--fail-on-critical], [--output-dir]. *)
Record Namespace : Type := {
  workflow : string;
  config : string;
  fail_on_critical : string;
  output_dir : string;
}.

(** The run outcome of a handler: a [dict]. *)
Abbreviation result_dict := (gmap string pyval).

(** [[f for f in out.strip().split("\n") if f]] *)
Definition changed_files_of (out : string) : list string :=
  filter (fun f => f ≠ "") (Py.split "010" (Py.strip out)).

Definition no_changed_files : result_dict :=
  list_to_map [("summary", PyStr "No changed files detected.");
               ("issues_found", PyInt 0);
               ("cost_saved", PyStr "N/A")].

Definition code_review_summary (changed_files : list string) (report : Report) : string :=
  fstring ["## Attune AI Code Review"; nl; nl;
           "**Files reviewed:** "; pretty (length changed_files); nl; nl;
           "**Issues found:** "; pretty (issue_count report); nl; nl;
           "**Critical:** "; pretty (critical_count report); " | ";
           "**Warning:** "; pretty (warning_count report); " | ";
           "**Info:** "; pretty (info_count report); nl; nl;
           "**Cost tier used:** "; Py.str (tier_used report); nl; nl;
           "**Estimated savings:** "; Py.str (cost_savings report); nl; nl;
           "See full report in artifacts."; nl].

Definition code_review_result (changed_files : list string) (report : Report) : result_dict :=
  list_to_map
    [("summary", PyStr (fstring [pretty (issue_count report); " issues found in ";
                                 pretty (length changed_files); " files"]));
     ("issues_found", PyInt (issue_count report));
     ("critical_count", PyInt (critical_count report));
     ("cost_saved", cost_savings report)].

Definition git_diff_argv : list string := ["git"; "diff"; "--name-only"; "HEAD~1"].

Definition run_code_review (w : World) (output_dir : PosixPath) (config : string)
  : M result_dict :=
  perform (ImportModule "attune.workflows") (import_module w "attune.workflows");;
  perform (ImportModule "attune.workflows.registry")
          (import_module w "attune.workflows.registry");;
  perform NewEngine (WorkflowEngine w);;
  workflow ← perform (GetWorkflow "code-review") (get_workflow w "code-review");
  result ← perform (SubprocessRun git_diff_argv) (subprocess_run w git_diff_argv);
  let changed_files := changed_files_of (stdout result) in
  match changed_files with
  | [] => mret no_changed_files
  | _ :: _ =>
      let c := {| call_workflow := workflow;
                  call_files := Some changed_files;
                  call_output_format := "markdown" |} in
      report ← perform (EngineRun c) (engine_run w c);
      let report_path := output_dir </> "code-review-report.md" in
      write_text report_path (to_markdown report);;
      let summary_path := output_dir </> "summary.md" in
      write_text summary_path (code_review_summary changed_files report);;
      mret (code_review_result changed_files report)
  end.

Definition release_prep_summary (report : Report) : string :=
  fstring ["## Attune AI Release Prep"; nl; nl;
           "**Security audit:** "; Py.str (security_status report); nl; nl;
           "**Test coverage:** "; Py.str (test_coverage report); nl; nl;
           "**Changelog generated:** ";
           (if Py.truthy (changelog report) then "Yes" else "No"); nl; nl;
           "**Quality gates passed:** "; pretty (gates_passed report); "/";
           pretty (gates_total report); nl; nl;
           "**Cost tier used:** "; Py.str (tier_used report); nl; nl;
           "**Estimated savings:** "; Py.str (cost_savings report); nl; nl;
           "See full report in artifacts."; nl].

Definition release_prep_result (report : Report) : result_dict :=
  list_to_map
    [("summary", PyStr (fstring ["Release prep complete: "; pretty (gates_passed report);
                                 "/"; pretty (gates_total report); " gates passed"]));
     ("issues_found", PyInt (gates_total report - gates_passed report));
     ("cost_saved", cost_savings report)].

Definition run_release_prep (w : World) (output_dir : PosixPath) (config : string)
  : M result_dict :=
  perform (ImportModule "attune.workflows") (import_module w "attune.workflows");;
  perform (ImportModule "attune.workflows.registry")
          (import_module w "attune.workflows.registry");;
  perform NewEngine (WorkflowEngine w);;
  workflow ← perform (GetWorkflow "release-prep") (get_workflow w "release-prep");
  let c := {| call_workflow := workflow;
              call_files := None;
              call_output_format := "markdown" |} in
  report ← perform (EngineRun c) (engine_run w c);
  let report_path := output_dir </> "release-prep-report.md" in
  write_text report_path (to_markdown report);;
  let summary_path := output_dir </> "summary.md" in
  write_text summary_path (release_prep_summary report);;
  mret (release_prep_result report).

(** A handler: a function of the output directory and the configuration
    path, run in a world. *)
Definition handler : Type := World -> PosixPath -> string -> M result_dict.

Definition workflow_runners : gmap string handler :=
  list_to_map [("code-review", run_code_review); ("release-prep", run_release_prep)].

Definition error_summary (workflow e : string) : string :=
  fstring ["## Attune AI - Error"; nl; nl;
           "Workflow `"; workflow; "` failed:"; nl; nl;
           "```"; nl; e; nl; "```"; nl].

(** The [with open(github_output, "a") as f:] block. *)
Definition set_outputs (github_output : string) (output_dir : PosixPath)
    (result : result_dict) : M unit :=
  let f := Path github_output in
  emit (Append f (fstring ["report="; Pathlib.str output_dir; nl]));;
  summary ← getitem result "summary";
  emit (Append f (fstring ["summary="; Py.str summary; nl]));;
  issues_found ← getitem result "issues_found";
  emit (Append f (fstring ["issues_found="; Py.str issues_found; nl]));;
  emit (Append f (fstring ["cost_saved="; Py.str (Py.get result "cost_saved" (PyStr "N/A")); nl])).

Definition critical_annotation (critical_count : pyval) : string :=
  fstring ["::error::Found "; Py.str critical_count; " critical issues. ";
           "Set fail_on_critical to false to ignore."].

(** What follows the [try] statement of [main] when the runner returned. *)
Definition after_run (w : World) (args : Namespace) (output_dir : PosixPath)
    (result : result_dict) : M unit :=
  let github_output := default "" (environ w !! "GITHUB_OUTPUT") in
  (if Py.is_empty github_output then mret tt
   else set_outputs github_output output_dir result);;
  gate ← (if bool_decide (fail_on_critical args = "true")
          then gt_zero (Py.get result "critical_count" (PyInt 0))
          else mret false);
  if (gate : bool) then
    critical_count ← getitem result "critical_count";
    print_stderr (critical_annotation critical_count);;
    sys_exit 1
  else
    summary ← getitem result "summary";
    print (fstring ["Attune workflow completed: "; Py.str summary]).

(** [main()], with the runner it dispatches to as a parameter. *)
Definition main_with (runner : handler) (w : World) (args : Namespace) (output_dir : PosixPath) : M unit :=
  try_except (runner w output_dir (config args))
    (fun e =>
       let summary_path := output_dir </> "summary.md" in
       write_text summary_path (error_summary (workflow args) e);;
       print_stderr (fstring ["::error::Attune workflow failed: "; e]);;
       sys_exit 1)
    (after_run w args output_dir).

Definition main (w : World) (args : Namespace) : M unit :=
  let output_dir := Path (output_dir args) in
  emit (Mkdir output_dir);;
  runner ← getitem workflow_runners (workflow args);
  main_with runner w args output_dir.

(** The exit status the interpreter gives a run of the script: 0 when
    [main()] returns, the code of [sys.exit], and 1 with a traceback on the
    error stream for an exception nobody caught. *)
Definition finish (m : M unit) : list event * Z :=
  match m with
  | (t, Returns _) => (t, 0)
  | (t, Raises (SystemExit code)) => (t, code)
  | (t, Raises (Exception text)) => ((t ++ [Traceback text])%list, 1)
  end.

(** The process: [main()] run as the script. *)
Definition process (w : World) (args : Namespace) : list event * Z :=
  finish (main w args).

Definition trace_of (w : World) (args : Namespace) : list event := (process w args).1.
Definition exit_status (w : World) (args : Namespace) : Z := (process w args).2.

(** ** Vocabulary of the statements *)

(** [sub] occurs in [s]. *)
Definition contains (sub s : string) : Prop :=
  exists pre post, s = pre +:+ sub +:+ post.

(** The handler gets as far as the version-control diff, which completes as
    [cp]: the imports, the engine constructor and the registry lookup have
    succeeded. *)
Definition diff_completes (w : World) (cp : CompletedProcess) : Prop :=
  import_module w "attune.workflows" = Gives tt /\
  import_module w "attune.workflows.registry" = Gives tt /\
  WorkflowEngine w = Gives tt /\
  (exists wf, get_workflow w "code-review" = Gives wf) /\
  subprocess_run w git_diff_argv = Gives cp.

(** The handler selected by [--workflow] ran, causing the events [t], and
    completed as [c]. *)
Definition handler_run (w : World) (args : Namespace) (t : list event)
    (c : completion result_dict) : Prop :=
  exists runner : handler,
    workflow_runners !! workflow args = Some runner /\
    runner w (Path (output_dir args)) (config args) = (t, c).

(** The test of the critical-issue gate,
    [args.fail_on_critical == "true" and result.get("critical_count", 0) > 0],
    on a result whose critical count, if any, is an integer. *)
Definition gate_closes (args : Namespace) (res : result_dict) : bool :=
  bool_decide (fail_on_critical args = "true") &&
  match res !! "critical_count" with
  | Some (PyInt n) => 0 <? n
  | _ => false
  end.

(** Events that only call a collaborator: nothing written, nothing printed. *)
Definition is_call (e : event) : Prop :=
  match e with
  | ImportModule _ | NewEngine | GetWorkflow _ | SubprocessRun _ | EngineRun _ => True
  | _ => False
  end.

Definition only_calls (t : list event) : Prop := Forall is_call t.

(** The calls every handler starts with, and those up to the diff. *)
Definition setup_trace (name : string) : list event :=
  [ImportModule "attune.workflows"; ImportModule "attune.workflows.registry";
   NewEngine; GetWorkflow name].

Definition diff_trace : list event :=
  (setup_trace "code-review" ++ [SubprocessRun git_diff_argv])%list.

(** The engine call of each handler. *)
Definition review_call (wf : string) (files : list string) : engine_call :=
  {| call_workflow := wf; call_files := Some files; call_output_format := "markdown" |}.

Definition release_call (wf : string) : engine_call :=
  {| call_workflow := wf; call_files := None; call_output_format := "markdown" |}.

(** How a run of the handler named [name] went: it failed before the engine
    was called, it returned early for want of changed files, the engine
    failed, or the engine gave a report and both files were written. *)
Inductive handler_case (d : PosixPath) (name : string)
  : list event -> completion result_dict -> Prop :=
  | case_early_failure t text :
      only_calls t -> engine_calls t = [] ->
      handler_case d name t (Raises (Exception text))
  | case_no_changes t :
      name = "code-review" ->
      only_calls t -> engine_calls t = [] ->
      handler_case d name t (Returns no_changed_files)
  | case_engine_failure t c text :
      only_calls t -> engine_calls t = [c] ->
      handler_case d name t (Raises (Exception text))
  | case_reported t c report res :
      only_calls t -> engine_calls t = [c] ->
      (name = "code-review" /\
         (exists files, call_files c = Some files /\ files <> [] /\
                        res = code_review_result files report) \/
       name = "release-prep" /\ call_files c = None /\
         res = release_prep_result report) ->
      handler_case d name
        (t ++ [WriteText (d </> (name +:+ "-report.md")) (to_markdown report);
               WriteText (d </> "summary.md")
                 (match call_files c with
                  | Some files => code_review_summary files report
                  | None => release_prep_summary report
                  end)])
        (Returns res).

(** The events of output publication. *)
Definition published (w : World) (d : PosixPath) (res : result_dict) : list event :=
  match environ w !! "GITHUB_OUTPUT" with
  | None | Some "" => []
  | Some github_output =>
      let f := Path github_output in
      [Append f ("report=" +:+ Pathlib.str d +:+ nl);
       Append f ("summary=" +:+ Py.str (Py.get res "summary" PyNone) +:+ nl);
       Append f ("issues_found=" +:+ Py.str (Py.get res "issues_found" PyNone) +:+ nl);
       Append f ("cost_saved=" +:+ Py.str (Py.get res "cost_saved" (PyStr "N/A")) +:+ nl)]
  end.

(** ** Sample runs *)

Module Sample.

(** Three issues, one of them critical; four release gates out of five. *)
Definition report : Report :=
  {| issue_count := 3; critical_count := 1; warning_count := 1; info_count := 1;
     tier_used := PyStr "cheap"; cost_savings := PyStr "$0.12";
     to_markdown := "# Attune report";
     security_status := PyStr "passed"; test_coverage := PyStr "81%";
     changelog := PyBool true; gates_passed := 4; gates_total := 5 |}.

(** A world where the attune package is installed, the diff completes as
    [diff], the engine answers [answer] and [GITHUB_OUTPUT] is [github_output]. *)
Definition world (diff : call CompletedProcess) (answer : call Report)
    (github_output : option string) : World :=
  {| environ := match github_output with
                | Some p => {[ "GITHUB_OUTPUT" := p ]}
                | None => ∅
                end;
     import_module := fun _ => Gives tt;
     WorkflowEngine := Gives tt;
     get_workflow := fun name => Gives name;
     subprocess_run := fun _ => diff;
     engine_run := fun _ => answer |}.

Definition two_files : CompletedProcess :=
  {| returncode := 0; stdout := "a.py" +:+ nl +:+ "b.py" +:+ nl; stderr := "" |}.

Definition no_output : CompletedProcess :=
  {| returncode := 0; stdout := ""; stderr := "" |}.

(** A diff that exits with status 128 after having listed a file. *)
Definition failed_with_output : CompletedProcess :=
  {| returncode := 128; stdout := "a.py" +:+ nl;
     stderr := "fatal: unable to read tree" |}.

Definition args (wf foc : string) : Namespace :=
  {| workflow := wf; config := ""; fail_on_critical := foc; output_dir := "/tmp/out" |}.

End Sample.

(** ** More vocabulary: text and traces *)

(** [c in s], for a character [c]. *)
Fixpoint has_char (c : ascii) (s : string) : bool :=
  match s with
  | EmptyString => false
  | String a s' => Ascii.eqb a c || has_char c s'
  end.

(** [s] is white space throughout; the empty string is. *)
Fixpoint all_space (s : string) : bool :=
  match s with
  | EmptyString => true
  | String a s' => Py.is_space a && all_space s'
  end.

(** The output of [git diff --name-only]: every name followed by a line feed. *)
Definition name_lines (names : list string) : string :=
  fstring (map (fun n => n +:+ nl) names).

(** The command lines run with [subprocess.run], and the directories made. *)
Definition subprocess_calls (t : list event) : list (list string) :=
  omap (fun e => match e with SubprocessRun argv => Some argv | _ => None end) t.

Definition mkdirs (t : list event) : list PosixPath :=
  omap (fun e => match e with Mkdir p => Some p | _ => None end) t.

(** The same command line with another [--config]. *)
Definition with_config (args : Namespace) (cfg : string) : Namespace :=
  {| workflow := workflow args; config := cfg;
     fail_on_critical := fail_on_critical args; output_dir := output_dir args |}.

(** The attune package is importable, the engine can be constructed and the
    registry knows the workflow [name], as the workflow object [wf]. *)
Definition setup_succeeds (w : World) (name wf : string) : Prop :=
  import_module w "attune.workflows" = Gives tt /\
  import_module w "attune.workflows.registry" = Gives tt /\
  WorkflowEngine w = Gives tt /\
  get_workflow w name = Gives wf.

(** ** Traces and the file system *)

Section Traces.

Implicit Types (fs : filesystem) (t : list event) (p : PosixPath).

Lemma replay_app fs t1 t2 : replay fs (t1 ++ t2) = replay (replay fs t1) t2.
Proof. apply foldl_app. Qed.

Lemma replay_cons fs e t : replay fs (e :: t) = replay (apply_event fs e) t.
Proof. reflexivity. Qed.

Lemma stderr_of_app t1 t2 : stderr_of (t1 ++ t2) = (stderr_of t1 ++ stderr_of t2)%list.
Proof. apply omap_app. Qed.

Lemma stdout_of_app t1 t2 : stdout_of (t1 ++ t2) = (stdout_of t1 ++ stdout_of t2)%list.
Proof. apply omap_app. Qed.

Lemma engine_calls_app t1 t2 :
  engine_calls (t1 ++ t2) = (engine_calls t1 ++ engine_calls t2)%list.
Proof. apply omap_app. Qed.

Lemma files_written_app t1 t2 :
  files_written (t1 ++ t2) = (files_written t1 ++ files_written t2)%list.
Proof. apply omap_app. Qed.

Lemma appended_to_app p t1 t2 :
  appended_to p (t1 ++ t2) = (appended_to p t1 ++ appended_to p t2)%list.
Proof. apply omap_app. Qed.

End Traces.

(** ** Text *)

Lemma append_cons (c : ascii) (s1 s2 : string) :
  String c s1 +:+ s2 = String c (s1 +:+ s2).
Proof. reflexivity. Qed.

Lemma append_nil_r (s : string) : s +:+ "" = s.
Proof. induction s as [|c s IH]; [done | by rewrite append_cons, IH]. Qed.

Lemma append_assoc (s1 s2 s3 : string) : (s1 +:+ s2) +:+ s3 = s1 +:+ s2 +:+ s3.
Proof. induction s1 as [|c s1 IH]; [done | by rewrite !append_cons, IH]. Qed.

Lemma fstring_cons (x : string) (l : list string) : fstring (x :: l) = x +:+ fstring l.
Proof. destruct l; simpl; [by rewrite append_nil_r | done]. Qed.

Lemma fstring_app (l1 l2 : list string) : fstring (l1 ++ l2) = fstring l1 +:+ fstring l2.
Proof.
  induction l1 as [|x l1 IH]; [done|].
  change ((x :: l1) ++ l2)%list with (x :: (l1 ++ l2))%list.
  by rewrite !fstring_cons, IH, append_assoc.
Qed.

(** A run of pieces of an f-string occurs in it. *)
Lemma contains_fstring (pre mid post : list string) :
  contains (fstring mid) (fstring (pre ++ mid ++ post)).
Proof. exists (fstring pre), (fstring post). by rewrite !fstring_app. Qed.

(** What [strip] leaves starts with a character that is not white space. *)
Lemma lstrip_head s c r : Py.lstrip s = String c r -> Py.is_space c = false.
Proof.
  induction s as [|a s IH]; simpl; [done|].
  destruct (Py.is_space a) eqn:Ha; [done|]. by intros [= <- _].
Qed.

Lemma strip_head s c r : Py.strip s = String c r -> Py.is_space c = false.
Proof.
  unfold Py.strip. destruct (Py.lstrip s) as [|a s'] eqn:Hl; [done|].
  apply lstrip_head in Hl. simpl. rewrite Hl. simpl. by intros [= <- _].
Qed.

Lemma split_not_nil sep s : Py.split sep s <> [].
Proof.
  induction s as [|a s IH]; simpl; [done|].
  destruct (Ascii.eqb a sep); [done|]. by destruct (Py.split sep s).
Qed.

(** The changed-file list is empty exactly when the output of the diff is
    blank: empty, or white space only. *)
Lemma changed_files_of_nil out : changed_files_of out = [] <-> Py.strip out = "".
Proof.
  unfold changed_files_of. split.
  - destruct (Py.strip out) as [|c r] eqn:Hs; [done|].
    apply strip_head in Hs. simpl.
    destruct (Ascii.eqb c "010") eqn:Hc.
    { apply Ascii.eqb_eq in Hc. subst c. discriminate Hs. }
    pose proof (split_not_nil "010" r) as Hne.
    destruct (Py.split "010" r) as [|h tl]; [done|].
    rewrite filter_cons_True by done. discriminate.
  - intros ->. reflexivity.
Qed.

(** ** The handlers, case by case *)

(** The two file names of a run are different files of the output directory. *)
Lemma report_not_summary (d : PosixPath) (wf : string) :
  wf = "code-review" \/ wf = "release-prep" ->
  d </> (wf +:+ "-report.md") <> d </> "summary.md".
Proof.
  intros [-> | ->] H; injection H as H; apply app_inv_head in H; discriminate.
Qed.

(** The dispatch table has the two handlers and nothing else. *)
Lemma workflow_runners_inv k r :
  workflow_runners !! k = Some r ->
  (k = "code-review" /\ r = run_code_review) \/
  (k = "release-prep" /\ r = run_release_prep).
Proof.
  unfold workflow_runners. simpl.
  rewrite !lookup_insert_Some, lookup_empty.
  intros [[<- <-] | [_ [[<- <-] | [_ ?]]]]; [by left | by right | done].
Qed.

Lemma only_calls_silent t :
  only_calls t ->
  stderr_of t = [] /\ stdout_of t = [] /\ files_written t = [] /\
  forall p, appended_to p t = [].
Proof.
  induction 1 as [|e t He _ (IH1 & IH2 & IH3 & IH4)]; [done|].
  destruct e; simpl in He; try done; simpl; auto.
Qed.

Ltac call_fails :=
  intros [= <- <-]; apply case_early_failure; [repeat constructor | reflexivity].

Lemma run_code_review_cases w d cfg t c :
  run_code_review w d cfg = (t, c) -> handler_case d "code-review" t c.
Proof.
  unfold run_code_review.
  destruct (import_module w "attune.workflows") as [[]|?]; simpl; [|call_fails].
  destruct (import_module w "attune.workflows.registry") as [[]|?]; simpl; [|call_fails].
  destruct (WorkflowEngine w) as [[]|?]; simpl; [|call_fails].
  destruct (get_workflow w "code-review") as [wf|?]; simpl; [|call_fails].
  destruct (subprocess_run w git_diff_argv) as [cp|?]; simpl; [|call_fails].
  destruct (changed_files_of (stdout cp)) as [|f fs] eqn:Hcf; simpl.
  { intros [= <- <-]. apply case_no_changes; [done | repeat constructor | done]. }
  destruct (engine_run w _) as [rep|?] eqn:Hrun; simpl.
  - intros [= <- <-].
    apply (case_reported d "code-review" (diff_trace ++ [EngineRun (review_call wf (f :: fs))])
             (review_call wf (f :: fs)) rep); [repeat constructor | done |].
    left. split; [done|]. exists (f :: fs). done.
  - intros [= <- <-].
    apply (case_engine_failure d "code-review" _ (review_call wf (f :: fs)));
      [repeat constructor | done].
Qed.

Lemma run_release_prep_cases w d cfg t c :
  run_release_prep w d cfg = (t, c) -> handler_case d "release-prep" t c.
Proof.
  unfold run_release_prep.
  destruct (import_module w "attune.workflows") as [[]|?]; simpl; [|call_fails].
  destruct (import_module w "attune.workflows.registry") as [[]|?]; simpl; [|call_fails].
  destruct (WorkflowEngine w) as [[]|?]; simpl; [|call_fails].
  destruct (get_workflow w "release-prep") as [wf|?]; simpl; [|call_fails].
  destruct (engine_run w _) as [rep|?] eqn:Hrun; simpl.
  - intros [= <- <-].
    apply (case_reported d "release-prep" (setup_trace "release-prep" ++ [EngineRun (release_call wf)])
             (release_call wf) rep); [repeat constructor | done |].
    right. done.
  - intros [= <- <-].
    apply (case_engine_failure d "release-prep" _ (release_call wf));
      [repeat constructor | done].
Qed.

Lemma handler_run_cases w args t c :
  handler_run w args t c ->
  handler_case (Path (output_dir args)) (workflow args) t c.
Proof.
  intros (runner & Hr & Hrun).
  destruct (workflow_runners_inv _ _ Hr) as [[-> ->] | [-> ->]].
  - by apply run_code_review_cases in Hrun.
  - by apply run_release_prep_cases in Hrun.
Qed.

(** ** The handlers, forwards *)

Lemma run_code_review_no_changes w d cfg cp :
  diff_completes w cp -> changed_files_of (stdout cp) = [] ->
  run_code_review w d cfg = (diff_trace, Returns no_changed_files).
Proof.
  intros (H1 & H2 & H3 & (wf & H4) & H5) Hnil. unfold run_code_review.
  rewrite H1, H2, H3, H4, H5. simpl. by rewrite Hnil.
Qed.

Lemma run_code_review_reported w d cfg cp wf report :
  diff_completes w cp -> get_workflow w "code-review" = Gives wf ->
  changed_files_of (stdout cp) <> [] ->
  engine_run w (review_call wf (changed_files_of (stdout cp))) = Gives report ->
  run_code_review w d cfg =
    ((diff_trace ++
      [EngineRun (review_call wf (changed_files_of (stdout cp)));
       WriteText (d </> "code-review-report.md") (to_markdown report);
       WriteText (d </> "summary.md")
                 (code_review_summary (changed_files_of (stdout cp)) report)])%list,
     Returns (code_review_result (changed_files_of (stdout cp)) report)).
Proof.
  intros (H1 & H2 & H3 & _ & H5) H4 Hne Hrun. unfold run_code_review.
  rewrite H1, H2, H3, H4, H5. simpl.
  destruct (changed_files_of (stdout cp)) as [|f fs]; [done|].
  unfold review_call in Hrun. rewrite Hrun. reflexivity.
Qed.

(** ** [main], step by step *)

Lemma main_handler_raises w args t text :
  handler_run w args t (Raises (Exception text)) ->
  main w args =
    ((Mkdir (Path (output_dir args)) :: t ++
      [WriteText (Path (output_dir args) </> "summary.md")
                 (error_summary (workflow args) text);
       Stderr ("::error::Attune workflow failed: " +:+ text)])%list,
     Raises (SystemExit 1)).
Proof.
  intros (runner & Hr & Hrun). unfold main, getitem, main_with, try_except.
  rewrite Hr. simpl. rewrite Hrun. reflexivity.
Qed.

Lemma main_handler_returns w args t res :
  handler_run w args t (Returns res) ->
  main w args =
    ((Mkdir (Path (output_dir args)) :: t ++
      (after_run w args (Path (output_dir args)) res).1)%list,
     (after_run w args (Path (output_dir args)) res).2).
Proof.
  intros (runner & Hr & Hrun). unfold main, getitem, main_with, try_except.
  rewrite Hr. simpl. rewrite Hrun.
  by destruct (after_run w args (Path (output_dir args)) res).
Qed.

(** A handler never exits the process itself. *)
Lemma handler_raises_exception w args t e :
  handler_run w args t (Raises e) -> exists text, e = Exception text.
Proof. intros H. apply handler_run_cases in H. inversion H; eauto. Qed.

(** The keys of a returned result: the summary and the issue count are
    there, and a critical count, if any, is an integer. *)
Lemma handler_result_keys w args t res :
  handler_run w args t (Returns res) ->
  (exists s i, res !! "summary" = Some (PyStr s) /\
               res !! "issues_found" = Some (PyInt i)) /\
  (res !! "critical_count" = None \/
   exists n, res !! "critical_count" = Some (PyInt n)).
Proof.
  intros H. apply handler_run_cases in H. inversion H as [| | |? ? ? ? ? ? Hres]; subst.
  - split; [by eexists _, _ | by left].
  - destruct Hres as [(_ & files & _ & _ & ->) | (_ & _ & ->)].
    + split; [by eexists _, _ | right; by eexists].
    + split; [by eexists _, _ | by left].
Qed.

Lemma set_outputs_spec w d res s i :
  res !! "summary" = Some s -> res !! "issues_found" = Some i ->
  (if Py.is_empty (default "" (environ w !! "GITHUB_OUTPUT")) then mret tt
   else set_outputs (default "" (environ w !! "GITHUB_OUTPUT")) d res)
  = (published w d res, Returns tt).
Proof.
  intros Hs Hi. unfold published, set_outputs, getitem, Py.get. rewrite Hs, Hi.
  by destruct (environ w !! "GITHUB_OUTPUT") as [[|c g]|].
Qed.

Lemma after_run_spec w args d res s i :
  res !! "summary" = Some s -> res !! "issues_found" = Some i ->
  (res !! "critical_count" = None \/
   exists n, res !! "critical_count" = Some (PyInt n)) ->
  after_run w args d res =
    if gate_closes args res then
      ((published w d res ++
        [Stderr (critical_annotation (Py.get res "critical_count" PyNone))])%list,
       Raises (SystemExit 1))
    else
      ((published w d res ++
        [Stdout ("Attune workflow completed: " +:+ Py.str s)])%list,
       Returns tt).
Proof.
  intros Hs Hi Hc. unfold after_run. cbv zeta.
  rewrite (set_outputs_spec w d res s i Hs Hi).
  unfold gate_closes, getitem, Py.get. rewrite Hs.
  destruct (bool_decide (fail_on_critical args = "true")); simpl.
  - destruct Hc as [-> | [n ->]]; simpl; [done|]. by destruct (0 <? n).
  - done.
Qed.

(** The events of a handler print nothing and append to no file. *)
Lemma handler_trace_silent w args t c :
  handler_run w args t c ->
  stderr_of t = [] /\ stdout_of t = [] /\ forall p, appended_to p t = [].
Proof.
  intros H. apply handler_run_cases in H.
  inversion H as [? ? Hc|? ? Hc|? ? ? Hc|? ? ? ? Hc]; subst;
    destruct (only_calls_silent _ Hc) as (He & Ho & _ & Ha).
  1-3: done.
  rewrite stderr_of_app, stdout_of_app, He, Ho. repeat split; [done..|].
  intros p. by rewrite appended_to_app, Ha.
Qed.

Lemma published_silent w d res :
  stderr_of (published w d res) = [] /\ stdout_of (published w d res) = [] /\
  files_written (published w d res) = [] /\ engine_calls (published w d res) = [].
Proof. unfold published. by destruct (environ w !! "GITHUB_OUTPUT") as [[|c g]|]. Qed.

(** ** The process, by how the handler completed *)

Lemma process_handler_raises w args t text :
  handler_run w args t (Raises (Exception text)) ->
  process w args =
    ((Mkdir (Path (output_dir args)) :: t ++
      [WriteText (Path (output_dir args) </> "summary.md")
                 (error_summary (workflow args) text);
       Stderr ("::error::Attune workflow failed: " +:+ text)])%list, 1).
Proof. intros H. unfold process. by rewrite (main_handler_raises _ _ _ _ H). Qed.

Lemma process_handler_returns w args t res :
  handler_run w args t (Returns res) ->
  exists s,
    res !! "summary" = Some (PyStr s) /\
    process w args =
      if gate_closes args res then
        ((Mkdir (Path (output_dir args)) :: t ++
          published w (Path (output_dir args)) res ++
          [Stderr (critical_annotation (Py.get res "critical_count" PyNone))])%list, 1)
      else
        ((Mkdir (Path (output_dir args)) :: t ++
          published w (Path (output_dir args)) res ++
          [Stdout ("Attune workflow completed: " +:+ s)])%list, 0).
Proof.
  intros H. destruct (handler_result_keys _ _ _ _ H) as ((s & i & Hs & Hi) & Hc).
  exists s. split; [done|]. unfold process.
  rewrite (main_handler_returns _ _ _ _ H), (after_run_spec _ _ _ _ _ _ Hs Hi Hc).
  by destruct (gate_closes args res).
Qed.

(** ** The code-review handler *)

(** C3. Whenever the version-control diff completes and yields an empty
    changed-file list, the code-review handler returns exactly the mapping
    of summary "No changed files detected.", issues_found 0 and cost_saved
    "N/A", without calling [engine.run] and without writing a file. *)
Theorem no_changed_files_short_circuit w d cfg cp :
  diff_completes w cp ->
  changed_files_of (stdout cp) = [] ->
  exists t,
    run_code_review w d cfg =
      (t, Returns (<["summary" := PyStr "No changed files detected."]>
                   (<["issues_found" := PyInt 0]>
                    (<["cost_saved" := PyStr "N/A"]> ∅)))) /\
    engine_calls t = [] /\
    files_written t = [].
Proof.
  intros Hd Hnil. exists diff_trace.
  by rewrite (run_code_review_no_changes _ _ _ _ Hd Hnil).
Qed.

Lemma no_changed_files_short_circuit_witness :
  exists t,
    run_code_review (Sample.world (Gives Sample.no_output) (Gives Sample.report) None)
                    (Path "/tmp/out") "" =
      (t, Returns (<["summary" := PyStr "No changed files detected."]>
                   (<["issues_found" := PyInt 0]>
                    (<["cost_saved" := PyStr "N/A"]> ∅)))) /\
    engine_calls t = [] /\
    files_written t = [].
Proof.
  apply (no_changed_files_short_circuit _ _ _ Sample.no_output).
  - repeat split. by exists "code-review".
  - reflexivity.
Defined.

(** C4. Whenever the diff yields a non-empty changed-file list and the engine
    gives a report, the code-review handler calls [engine.run] once, with
    that list, and returns; afterwards code-review-report.md in the output
    directory holds the markdown rendering of the report, and summary.md
    holds a text in which the number of changed files and the issue,
    critical, warning and info counts of the report occur under their
    labels. *)
Theorem code_review_writes_report_and_summary w d cfg cp wf report fs :
  diff_completes w cp ->
  get_workflow w "code-review" = Gives wf ->
  changed_files_of (stdout cp) <> [] ->
  engine_run w (review_call wf (changed_files_of (stdout cp))) = Gives report ->
  exists t res summary,
    run_code_review w d cfg = (t, Returns res) /\
    engine_calls t =
      [{| call_workflow := wf;
          call_files := Some (changed_files_of (stdout cp));
          call_output_format := "markdown" |}] /\
    replay fs t !! (d </> "code-review-report.md") = Some (to_markdown report) /\
    replay fs t !! (d </> "summary.md") = Some summary /\
    contains ("**Files reviewed:** " +:+
              pretty (length (changed_files_of (stdout cp))) +:+ nl) summary /\
    contains ("**Issues found:** " +:+ pretty (issue_count report) +:+ nl) summary /\
    contains ("**Critical:** " +:+ pretty (critical_count report) +:+ " | ") summary /\
    contains ("**Warning:** " +:+ pretty (warning_count report) +:+ " | ") summary /\
    contains ("**Info:** " +:+ pretty (info_count report) +:+ nl) summary.
Proof.
  intros Hd Hwf Hne Hrun.
  eexists _, _, (code_review_summary (changed_files_of (stdout cp)) report).
  split; [exact (run_code_review_reported _ d cfg _ _ _ Hd Hwf Hne Hrun)|].
  split; [done|].
  rewrite !replay_app. simpl.
  split.
  { rewrite lookup_insert_ne; [apply lookup_insert_eq|].
    intros Heq. symmetry in Heq. revert Heq.
    apply (report_not_summary d "code-review"). by left. }
  split; [apply lookup_insert_eq|].
  unfold code_review_summary.
  set (n := pretty (length (changed_files_of (stdout cp)))).
  repeat split.
  - exact (contains_fstring ["## Attune AI Code Review"; nl; nl]
             ["**Files reviewed:** "; n; nl] _).
  - exact (contains_fstring
             ["## Attune AI Code Review"; nl; nl; "**Files reviewed:** "; n; nl; nl]
             ["**Issues found:** "; pretty (issue_count report); nl] _).
  - exact (contains_fstring
             ["## Attune AI Code Review"; nl; nl; "**Files reviewed:** "; n; nl; nl;
              "**Issues found:** "; pretty (issue_count report); nl; nl]
             ["**Critical:** "; pretty (critical_count report); " | "] _).
  - exact (contains_fstring
             ["## Attune AI Code Review"; nl; nl; "**Files reviewed:** "; n; nl; nl;
              "**Issues found:** "; pretty (issue_count report); nl; nl;
              "**Critical:** "; pretty (critical_count report); " | "]
             ["**Warning:** "; pretty (warning_count report); " | "] _).
  - exact (contains_fstring
             ["## Attune AI Code Review"; nl; nl; "**Files reviewed:** "; n; nl; nl;
              "**Issues found:** "; pretty (issue_count report); nl; nl;
              "**Critical:** "; pretty (critical_count report); " | ";
              "**Warning:** "; pretty (warning_count report); " | "]
             ["**Info:** "; pretty (info_count report); nl] _).
Qed.

Lemma code_review_writes_report_and_summary_witness :
  exists t res summary,
    run_code_review (Sample.world (Gives Sample.two_files) (Gives Sample.report) None)
                    (Path "/tmp/out") "" = (t, Returns res) /\
    engine_calls t =
      [{| call_workflow := "code-review";
          call_files := Some (changed_files_of (stdout Sample.two_files));
          call_output_format := "markdown" |}] /\
    replay ∅ t !! (Path "/tmp/out" </> "code-review-report.md") =
      Some (to_markdown Sample.report) /\
    replay ∅ t !! (Path "/tmp/out" </> "summary.md") = Some summary /\
    contains ("**Files reviewed:** " +:+
              pretty (length (changed_files_of (stdout Sample.two_files))) +:+ nl)
             summary /\
    contains ("**Issues found:** " +:+ pretty (issue_count Sample.report) +:+ nl) summary /\
    contains ("**Critical:** " +:+ pretty (critical_count Sample.report) +:+ " | ") summary /\
    contains ("**Warning:** " +:+ pretty (warning_count Sample.report) +:+ " | ") summary /\
    contains ("**Info:** " +:+ pretty (info_count Sample.report) +:+ nl) summary.
Proof.
  apply (code_review_writes_report_and_summary _ _ _ Sample.two_files "code-review").
  - repeat split. by exists "code-review".
  - reflexivity.
  - discriminate.
  - reflexivity.
Defined.

(** The run of the spec's example: two changed files, three issues of which
    one critical, the default "true" for fail-on-critical. *)
Example code_review_example :
  let w := Sample.world (Gives Sample.two_files) (Gives Sample.report) None in
  let args := Sample.args "code-review" "true" in
  files_written (trace_of w args) =
    [Path "/tmp/out/code-review-report.md"; Path "/tmp/out/summary.md"] /\
  exit_status w args = 1.
Proof. split; reflexivity. Qed.

(** ** The release-prep handler *)

(** C10. Whenever the release-prep handler returns, the engine has given a
    report; issues_found in the result is the total gate count of that report
    minus its passed gate count, and the summary of the result reads
    "Release prep complete: P/T gates passed", with P the passed and T the
    total gate count. *)
Theorem release_prep_issues_found w d cfg t res :
  run_release_prep w d cfg = (t, Returns res) ->
  exists c report,
    engine_calls t = [c] /\
    engine_run w c = Gives report /\
    res !! "issues_found" = Some (PyInt (gates_total report - gates_passed report)) /\
    res !! "summary" =
      Some (PyStr ("Release prep complete: " +:+ pretty (gates_passed report) +:+ "/" +:+
                   pretty (gates_total report) +:+ " gates passed")).
Proof.
  unfold run_release_prep.
  destruct (import_module w "attune.workflows") as [[]|?]; simpl; [|done].
  destruct (import_module w "attune.workflows.registry") as [[]|?]; simpl; [|done].
  destruct (WorkflowEngine w) as [[]|?]; simpl; [|done].
  destruct (get_workflow w "release-prep") as [wf|?]; simpl; [|done].
  destruct (engine_run w _) as [rep|?] eqn:Hrun; simpl; [|done].
  intros [= <- <-]. by eexists _, rep.
Qed.

Lemma release_prep_issues_found_witness :
  exists c report,
    engine_calls (run_release_prep
                    (Sample.world (Gives Sample.no_output) (Gives Sample.report) None)
                    (Path "/tmp/out") "").1 = [c] /\
    engine_run (Sample.world (Gives Sample.no_output) (Gives Sample.report) None) c
      = Gives report /\
    release_prep_result Sample.report !! "issues_found"
      = Some (PyInt (gates_total report - gates_passed report)) /\
    release_prep_result Sample.report !! "summary" =
      Some (PyStr ("Release prep complete: " +:+ pretty (gates_passed report) +:+ "/" +:+
                   pretty (gates_total report) +:+ " gates passed")).
Proof.
  apply (release_prep_issues_found _ (Path "/tmp/out") "").
  reflexivity.
Defined.

(** ** A failed or silent diff *)

(** C9, as stated, fails: a diff that exits with a non-zero status after
    having listed a file on its standard output is not taken for an empty
    changed-file list; the engine is called with the file listed. *)
Lemma nonzero_exit_with_output_reaches_engine :
  diff_completes (Sample.world (Gives Sample.failed_with_output) (Gives Sample.report) None)
                 Sample.failed_with_output /\
  returncode Sample.failed_with_output <> 0 /\
  engine_calls
    (trace_of (Sample.world (Gives Sample.failed_with_output) (Gives Sample.report) None)
              (Sample.args "code-review" "false")) =
    [review_call "code-review" ["a.py"]] /\
  (run_code_review (Sample.world (Gives Sample.failed_with_output) (Gives Sample.report) None)
                   (Path "/tmp/out") "").2 =
    Returns (code_review_result ["a.py"] Sample.report) /\
  code_review_result ["a.py"] Sample.report <> no_changed_files.
Proof.
  split; [repeat split; by exists "code-review"|].
  split; [done|]. split; [reflexivity|]. split; [reflexivity|].
  intros H. apply (f_equal (fun m : result_dict => m !! "critical_count")) in H.
  discriminate H.
Qed.

(** C9, amended. In a code-review run whose diff completes with a blank
    standard output (empty, or white space only), whatever its exit status,
    the handler returns the fixed "No changed files detected." result, the
    engine is not called, and the process prints the completion message and
    exits with status 0. *)
Theorem blank_diff_output_succeeds w args cp :
  workflow args = "code-review" ->
  diff_completes w cp ->
  Py.strip (stdout cp) = "" ->
  (exists t,
     run_code_review w (Path (output_dir args)) (config args) =
       (t, Returns (<["summary" := PyStr "No changed files detected."]>
                    (<["issues_found" := PyInt 0]>
                     (<["cost_saved" := PyStr "N/A"]> ∅))))) /\
  engine_calls (trace_of w args) = [] /\
  stderr_of (trace_of w args) = [] /\
  stdout_of (trace_of w args) = ["Attune workflow completed: No changed files detected."] /\
  exit_status w args = 0.
Proof.
  intros Hwf Hd Hblank. apply changed_files_of_nil in Hblank.
  pose proof (run_code_review_no_changes w (Path (output_dir args)) (config args) cp
                Hd Hblank) as Hrun.
  split; [by exists diff_trace|].
  assert (handler_run w args diff_trace (Returns no_changed_files)) as H.
  { exists run_code_review. by rewrite Hwf. }
  destruct (published_silent w (Path (output_dir args)) no_changed_files)
    as (Hpe & Hpo & _ & Hpc).
  destruct (process_handler_returns _ _ _ _ H) as (s & Hs & Hp).
  injection Hs as <-.
  unfold trace_of, exit_status. rewrite Hp.
  replace (gate_closes args no_changed_files) with false
    by (unfold gate_closes; by rewrite andb_false_r).
  simpl. rewrite engine_calls_app, stderr_of_app, stdout_of_app, Hpe, Hpo, Hpc. done.
Qed.

Lemma blank_diff_output_succeeds_witness :
  (exists t,
     run_code_review
       (Sample.world (Gives {| returncode := 128; stdout := nl; stderr := "fatal" |})
                     (Gives Sample.report) None)
       (Path (output_dir (Sample.args "code-review" "true")))
       (config (Sample.args "code-review" "true")) =
       (t, Returns (<["summary" := PyStr "No changed files detected."]>
                    (<["issues_found" := PyInt 0]>
                     (<["cost_saved" := PyStr "N/A"]> ∅))))) /\
  engine_calls
    (trace_of (Sample.world (Gives {| returncode := 128; stdout := nl; stderr := "fatal" |})
                            (Gives Sample.report) None)
              (Sample.args "code-review" "true")) = [] /\
  stderr_of
    (trace_of (Sample.world (Gives {| returncode := 128; stdout := nl; stderr := "fatal" |})
                            (Gives Sample.report) None)
              (Sample.args "code-review" "true")) = [] /\
  stdout_of
    (trace_of (Sample.world (Gives {| returncode := 128; stdout := nl; stderr := "fatal" |})
                            (Gives Sample.report) None)
              (Sample.args "code-review" "true")) =
    ["Attune workflow completed: No changed files detected."] /\
  exit_status (Sample.world (Gives {| returncode := 128; stdout := nl; stderr := "fatal" |})
                            (Gives Sample.report) None)
              (Sample.args "code-review" "true") = 0.
Proof.
  apply (blank_diff_output_succeeds _ _ {| returncode := 128; stdout := nl; stderr := "fatal" |}).
  - reflexivity.
  - repeat split. by exists "code-review".
  - reflexivity.
Defined.

(** ** Output publication *)

(** C5, as stated, fails: the [report=] line carries the output directory,
    not the path of the report file the run wrote. *)
Lemma report_output_is_the_directory :
  files_written
    (trace_of (Sample.world (Gives Sample.two_files) (Gives Sample.report)
                            (Some "/tmp/github_output"))
              (Sample.args "code-review" "false")) =
    [Path "/tmp/out/code-review-report.md"; Path "/tmp/out/summary.md"] /\
  appended_to (Path "/tmp/github_output")
    (trace_of (Sample.world (Gives Sample.two_files) (Gives Sample.report)
                            (Some "/tmp/github_output"))
              (Sample.args "code-review" "false")) =
    ["report=/tmp/out" +:+ nl;
     "summary=3 issues found in 2 files" +:+ nl;
     "issues_found=3" +:+ nl;
     "cost_saved=$0.12" +:+ nl] /\
  "report=/tmp/out" +:+ nl <>
  "report=" +:+ Pathlib.str (Path "/tmp/out/code-review-report.md") +:+ nl.
Proof. split; [reflexivity|]. split; [reflexivity|]. discriminate. Qed.

(** C5, amended. Whenever the selected handler returns a result: the run
    exits with status 0 and prints the completion message with the summary
    unless the critical-issue gate closes, whether [GITHUB_OUTPUT] is set or
    not; if [GITHUB_OUTPUT] is unset or empty, nothing is appended to any
    file; if it names a file, exactly four records are appended to that file
    and to no other, each ended by a line feed and in this order: [report=]
    with the output directory, [summary=], [issues_found=] and
    [cost_saved=]. *)
Theorem outputs_published w args t res :
  handler_run w args t (Returns res) ->
  exists s i,
    res !! "summary" = Some (PyStr s) /\
    res !! "issues_found" = Some (PyInt i) /\
    (gate_closes args res = false ->
     exit_status w args = 0 /\
     stdout_of (trace_of w args) = ["Attune workflow completed: " +:+ s]) /\
    (environ w !! "GITHUB_OUTPUT" = None \/ environ w !! "GITHUB_OUTPUT" = Some "" ->
     forall p, appended_to p (trace_of w args) = []) /\
    (forall github_output,
       environ w !! "GITHUB_OUTPUT" = Some github_output -> github_output <> "" ->
       appended_to (Path github_output) (trace_of w args) =
         ["report=" +:+ Pathlib.str (Path (output_dir args)) +:+ nl;
          "summary=" +:+ s +:+ nl;
          "issues_found=" +:+ pretty i +:+ nl;
          "cost_saved=" +:+ Py.str (Py.get res "cost_saved" (PyStr "N/A")) +:+ nl] /\
       forall p, p <> Path github_output -> appended_to p (trace_of w args) = []).
Proof.
  intros H.
  destruct (handler_trace_silent _ _ _ _ H) as (He & Ho & Ha).
  destruct (published_silent w (Path (output_dir args)) res) as (Hpe & Hpo & _).
  destruct (handler_result_keys _ _ _ _ H) as ((s & i & Hs & Hi) & _).
  destruct (process_handler_returns _ _ _ _ H) as (s' & Hs' & Hp).
  rewrite Hs in Hs'. injection Hs' as <-.
  exists s, i. split; [done|]. split; [done|].
  assert (forall p, appended_to p (trace_of w args) =
                    appended_to p (published w (Path (output_dir args)) res)) as Happ.
  { intros p. unfold trace_of. rewrite Hp.
    destruct (gate_closes args res); simpl;
      rewrite !appended_to_app, Ha; simpl; by rewrite app_nil_r. }
  split; [|split].
  - intros Hgate. unfold trace_of, exit_status. rewrite Hp, Hgate. simpl.
    by rewrite !stdout_of_app, Ho, Hpo.
  - intros Hunset p. rewrite Happ. unfold published. by destruct Hunset as [-> | ->].
  - intros gh Hgh Hne. unfold Py.get.
    split; [|intros p Hp']; rewrite Happ; unfold published, Py.get;
      rewrite Hgh, Hs, Hi; destruct gh as [|c g]; try done; simpl.
    + by rewrite !decide_True.
    + by rewrite !decide_False.
Qed.

Lemma outputs_published_witness :
  exists s i,
    code_review_result ["a.py"; "b.py"] Sample.report !! "summary" = Some (PyStr s) /\
    code_review_result ["a.py"; "b.py"] Sample.report !! "issues_found" = Some (PyInt i) /\
    (gate_closes (Sample.args "code-review" "false")
                 (code_review_result ["a.py"; "b.py"] Sample.report) = false ->
     exit_status (Sample.world (Gives Sample.two_files) (Gives Sample.report)
                               (Some "/tmp/github_output"))
                 (Sample.args "code-review" "false") = 0 /\
     stdout_of (trace_of (Sample.world (Gives Sample.two_files) (Gives Sample.report)
                                       (Some "/tmp/github_output"))
                         (Sample.args "code-review" "false")) =
       ["Attune workflow completed: " +:+ s]) /\
    (environ (Sample.world (Gives Sample.two_files) (Gives Sample.report)
                           (Some "/tmp/github_output")) !! "GITHUB_OUTPUT" = None \/
     environ (Sample.world (Gives Sample.two_files) (Gives Sample.report)
                           (Some "/tmp/github_output")) !! "GITHUB_OUTPUT" = Some "" ->
     forall p,
       appended_to p (trace_of (Sample.world (Gives Sample.two_files) (Gives Sample.report)
                                             (Some "/tmp/github_output"))
                               (Sample.args "code-review" "false")) = []) /\
    (forall github_output,
       environ (Sample.world (Gives Sample.two_files) (Gives Sample.report)
                             (Some "/tmp/github_output")) !! "GITHUB_OUTPUT"
         = Some github_output ->
       github_output <> "" ->
       appended_to (Path github_output)
         (trace_of (Sample.world (Gives Sample.two_files) (Gives Sample.report)
                                 (Some "/tmp/github_output"))
                   (Sample.args "code-review" "false")) =
         ["report=" +:+ Pathlib.str (Path (output_dir (Sample.args "code-review" "false")))
                    +:+ nl;
          "summary=" +:+ s +:+ nl;
          "issues_found=" +:+ pretty i +:+ nl;
          "cost_saved=" +:+
            Py.str (Py.get (code_review_result ["a.py"; "b.py"] Sample.report)
                           "cost_saved" (PyStr "N/A")) +:+ nl] /\
       forall p, p <> Path github_output ->
         appended_to p
           (trace_of (Sample.world (Gives Sample.two_files) (Gives Sample.report)
                                   (Some "/tmp/github_output"))
                     (Sample.args "code-review" "false")) = []).
Proof.
  eapply outputs_published.
  exists run_code_review. split; reflexivity.
Defined.

(** ** The critical-issue gate *)

(** C1. Whenever the selected handler returns a result, the fail-on-critical
    parameter is the literal string "true" and the critical-issue count of the
    result is greater than zero, the process prints the error annotation on
    the error stream, and nothing else there, and exits with status 1; the
    completion message is not printed. *)
Theorem critical_gate_exits_nonzero w args t res n :
  handler_run w args t (Returns res) ->
  fail_on_critical args = "true" ->
  Py.get res "critical_count" (PyInt 0) = PyInt n -> 0 < n ->
  stderr_of (trace_of w args) =
    ["::error::Found " +:+ pretty n +:+
     " critical issues. Set fail_on_critical to false to ignore."] /\
  stdout_of (trace_of w args) = [] /\
  exit_status w args = 1.
Proof.
  intros H Hfoc Hget Hn.
  destruct (handler_trace_silent _ _ _ _ H) as (He & Ho & _).
  destruct (published_silent w (Path (output_dir args)) res) as (Hpe & Hpo & _).
  destruct (handler_result_keys _ _ _ _ H) as (_ & Hc).
  destruct (process_handler_returns _ _ _ _ H) as (s & _ & Hp).
  assert (res !! "critical_count" = Some (PyInt n)) as Hcrit.
  { unfold Py.get in Hget. destruct Hc as [Hc | [m Hc]]; rewrite Hc in Hget |- *.
    - injection Hget as <-. lia.
    - by injection Hget as ->. }
  assert (gate_closes args res = true) as Hgate.
  { unfold gate_closes. rewrite Hcrit, bool_decide_eq_true_2 by done.
    simpl. by apply Z.ltb_lt. }
  rewrite Hgate in Hp. unfold trace_of, exit_status. rewrite Hp. simpl.
  rewrite stderr_of_app, stderr_of_app, stdout_of_app, stdout_of_app, He, Ho, Hpe, Hpo.
  unfold Py.get. rewrite Hcrit. done.
Qed.

Lemma critical_gate_exits_nonzero_witness :
  stderr_of (trace_of (Sample.world (Gives Sample.two_files) (Gives Sample.report) None)
                      (Sample.args "code-review" "true")) =
    ["::error::Found 1 critical issues. Set fail_on_critical to false to ignore."] /\
  stdout_of (trace_of (Sample.world (Gives Sample.two_files) (Gives Sample.report) None)
                      (Sample.args "code-review" "true")) = [] /\
  exit_status (Sample.world (Gives Sample.two_files) (Gives Sample.report) None)
              (Sample.args "code-review" "true") = 1.
Proof.
  eapply (critical_gate_exits_nonzero _ _ _ _ 1).
  - exists run_code_review. split; reflexivity.
  - reflexivity.
  - reflexivity.
  - lia.
Defined.

(** C6. Whenever the selected handler returns a result and the
    fail-on-critical parameter is any string other than the literal "true",
    the process exits with status 0 whatever the critical-issue count of the
    result: it prints the completion message and nothing on the error
    stream. *)
Theorem gate_ignored_unless_true w args t res :
  handler_run w args t (Returns res) ->
  fail_on_critical args <> "true" ->
  exit_status w args = 0 /\
  stderr_of (trace_of w args) = [] /\
  exists s, res !! "summary" = Some (PyStr s) /\
            stdout_of (trace_of w args) = ["Attune workflow completed: " +:+ s].
Proof.
  intros H Hfoc.
  destruct (handler_trace_silent _ _ _ _ H) as (He & Ho & _).
  destruct (published_silent w (Path (output_dir args)) res) as (Hpe & Hpo & _).
  destruct (process_handler_returns _ _ _ _ H) as (s & Hs & Hp).
  assert (gate_closes args res = false) as Hgate.
  { unfold gate_closes. by rewrite bool_decide_eq_false_2. }
  rewrite Hgate in Hp. unfold trace_of, exit_status. rewrite Hp. simpl.
  rewrite stderr_of_app, stderr_of_app, stdout_of_app, stdout_of_app, He, Ho, Hpe, Hpo.
  split; [done|]. split; [done|]. by exists s.
Qed.

Lemma gate_ignored_unless_true_witness :
  exit_status (Sample.world (Gives Sample.two_files) (Gives Sample.report) None)
              (Sample.args "code-review" "True") = 0 /\
  stderr_of (trace_of (Sample.world (Gives Sample.two_files) (Gives Sample.report) None)
                      (Sample.args "code-review" "True")) = [] /\
  exists s, code_review_result ["a.py"; "b.py"] Sample.report !! "summary" = Some (PyStr s) /\
            stdout_of (trace_of (Sample.world (Gives Sample.two_files) (Gives Sample.report) None)
                                (Sample.args "code-review" "True")) =
              ["Attune workflow completed: " +:+ s].
Proof.
  eapply gate_ignored_unless_true.
  - exists run_code_review. split; reflexivity.
  - discriminate.
Defined.

(** C8. The result of the release-prep handler never has a critical-issue
    count, so a release-prep run whose handler returned exits with status 0
    and prints no error annotation, whatever the fail-on-critical parameter
    and whatever report the engine gave. *)
Theorem release_prep_never_gated w args t res :
  workflow args = "release-prep" ->
  handler_run w args t (Returns res) ->
  res !! "critical_count" = None /\
  exit_status w args = 0 /\
  stderr_of (trace_of w args) = [].
Proof.
  intros Hwf H.
  destruct (handler_trace_silent _ _ _ _ H) as (He & Ho & _).
  destruct (published_silent w (Path (output_dir args)) res) as (Hpe & Hpo & _).
  destruct (process_handler_returns _ _ _ _ H) as (s & Hs & Hp).
  assert (res !! "critical_count" = None) as Hcrit.
  { apply handler_run_cases in H. rewrite Hwf in H.
    inversion H as [|? Hname|
                    |? ? ? ? ? ? [(Hname & _) | (_ & _ & Hres)]]; subst;
      try discriminate Hname. reflexivity. }
  assert (gate_closes args res = false) as Hgate.
  { unfold gate_closes. rewrite Hcrit. apply andb_false_r. }
  rewrite Hgate in Hp. unfold trace_of, exit_status. rewrite Hp. simpl.
  rewrite stderr_of_app, stderr_of_app, He, Hpe. done.
Qed.

Lemma release_prep_never_gated_witness :
  release_prep_result Sample.report !! "critical_count" = None /\
  exit_status (Sample.world (Gives Sample.no_output) (Gives Sample.report) None)
              (Sample.args "release-prep" "true") = 0 /\
  stderr_of (trace_of (Sample.world (Gives Sample.no_output) (Gives Sample.report) None)
                      (Sample.args "release-prep" "true")) = [].
Proof.
  eapply release_prep_never_gated.
  - reflexivity.
  - exists run_release_prep. split; reflexivity.
Defined.

(** ** Failure handling *)

(** C2. Whenever the selected handler raises, what it raised is an exception
    with some text; the process then overwrites summary.md in the output
    directory with the "Error" heading, the workflow name and the exception
    text, prints one error line on the error stream and exits with status 1.
    Nothing is appended to any file, so no GitHub output line is written, and
    nothing is printed on standard output. *)
Theorem failure_overwrites_summary w args t e fs :
  handler_run w args t (Raises e) ->
  exists text,
    e = Exception text /\
    replay fs (trace_of w args) !! (Path (output_dir args) </> "summary.md") =
      Some ("## Attune AI - Error" +:+ nl +:+ nl +:+
            "Workflow `" +:+ workflow args +:+ "` failed:" +:+ nl +:+ nl +:+
            "```" +:+ nl +:+ text +:+ nl +:+ "```" +:+ nl) /\
    stderr_of (trace_of w args) = ["::error::Attune workflow failed: " +:+ text] /\
    exit_status w args = 1 /\
    stdout_of (trace_of w args) = [] /\
    forall p, appended_to p (trace_of w args) = [].
Proof.
  intros H. destruct (handler_raises_exception _ _ _ _ H) as [text ->].
  exists text. split; [done|].
  destruct (handler_trace_silent _ _ _ _ H) as (He & Ho & Ha).
  unfold trace_of, exit_status. rewrite (process_handler_raises _ _ _ _ H). simpl.
  rewrite stderr_of_app, stdout_of_app, He, Ho.
  repeat split; try done.
  - change (Mkdir ?d :: ?l) with ([Mkdir d] ++ l)%list.
    rewrite !replay_app. simpl. apply lookup_insert_eq.
  - intros p. by rewrite appended_to_app, Ha.
Qed.

Lemma failure_overwrites_summary_witness :
  exists text,
    Exception "engine unavailable" = Exception text /\
    replay {[ Path "/tmp/out/summary.md" := "stale" ]}
           (trace_of (Sample.world (Gives Sample.two_files) (Fails "engine unavailable")
                                   (Some "/tmp/github_output"))
                     (Sample.args "code-review" "true"))
      !! (Path (output_dir (Sample.args "code-review" "true")) </> "summary.md") =
      Some ("## Attune AI - Error" +:+ nl +:+ nl +:+
            "Workflow `" +:+ workflow (Sample.args "code-review" "true") +:+
            "` failed:" +:+ nl +:+ nl +:+
            "```" +:+ nl +:+ text +:+ nl +:+ "```" +:+ nl) /\
    stderr_of (trace_of (Sample.world (Gives Sample.two_files) (Fails "engine unavailable")
                                      (Some "/tmp/github_output"))
                        (Sample.args "code-review" "true")) =
      ["::error::Attune workflow failed: " +:+ text] /\
    exit_status (Sample.world (Gives Sample.two_files) (Fails "engine unavailable")
                              (Some "/tmp/github_output"))
                (Sample.args "code-review" "true") = 1 /\
    stdout_of (trace_of (Sample.world (Gives Sample.two_files) (Fails "engine unavailable")
                                      (Some "/tmp/github_output"))
                        (Sample.args "code-review" "true")) = [] /\
    forall p, appended_to p
                (trace_of (Sample.world (Gives Sample.two_files) (Fails "engine unavailable")
                                        (Some "/tmp/github_output"))
                          (Sample.args "code-review" "true")) = [].
Proof.
  eapply failure_overwrites_summary.
  exists run_code_review. split; reflexivity.
Defined.

(** ** The files of a run *)

(** C7, as stated, fails: a code-review run whose diff lists no file writes
    neither a report file nor a summary file, and ends with status 0. *)
Lemma no_changed_files_writes_no_file :
  files_written
    (trace_of (Sample.world (Gives Sample.no_output) (Gives Sample.report) None)
              (Sample.args "code-review" "true")) = [] /\
  exit_status (Sample.world (Gives Sample.no_output) (Gives Sample.report) None)
              (Sample.args "code-review" "true") = 0.
Proof. split; reflexivity. Qed.

(** C7, amended. The selected workflow is one of the two.  A run whose
    handler returns after the engine was called writes exactly two files into
    the output directory: the report file named after the workflow, then
    summary.md.  A run whose handler returns without the engine having been
    called, which is the code-review run with no changed file, writes no
    file.  In a run whose handler raises, the last file written is summary.md,
    which then holds the error summary. *)
Theorem files_written_per_run w args t c fs :
  handler_run w args t c ->
  (workflow args = "code-review" \/ workflow args = "release-prep") /\
  match c with
  | Returns res =>
      (engine_calls t <> [] ->
       files_written (trace_of w args) =
         [Path (output_dir args) </> (workflow args +:+ "-report.md");
          Path (output_dir args) </> "summary.md"]) /\
      (engine_calls t = [] ->
       workflow args = "code-review" /\ res = no_changed_files /\
       files_written (trace_of w args) = [])
  | Raises e =>
      last (files_written (trace_of w args)) =
        Some (Path (output_dir args) </> "summary.md") /\
      exists text,
        e = Exception text /\
        replay fs (trace_of w args) !! (Path (output_dir args) </> "summary.md") =
          Some (error_summary (workflow args) text)
  end.
Proof.
  intros H. split.
  { destruct H as (r & Hr & _).
    destruct (workflow_runners_inv _ _ Hr) as [[-> _] | [-> _]]; auto. }
  pose proof (handler_run_cases _ _ _ _ H) as Hcase.
  destruct c as [res | e].
  - destruct (published_silent w (Path (output_dir args)) res) as (_ & _ & Hpw & _).
    destruct (process_handler_returns _ _ _ _ H) as (s & _ & Hp).
    assert (files_written (trace_of w args) = files_written t) as Hfw.
    { unfold trace_of. rewrite Hp.
      destruct (gate_closes args res); simpl;
        rewrite !files_written_app, Hpw; simpl; by rewrite app_nil_r. }
    rewrite Hfw.
    inversion Hcase as [|? Hname Hc Hcalls| |t0 c0 rep ? Hc Hcalls Hres]; subst.
    + destruct (only_calls_silent _ Hc) as (_ & _ & Hw & _). by split.
    + destruct (only_calls_silent _ Hc) as (_ & _ & Hw & _).
      rewrite engine_calls_app, Hcalls, files_written_app, Hw. by split.
  - destruct (handler_raises_exception _ _ _ _ H) as [text ->].
    unfold trace_of. rewrite (process_handler_raises _ _ _ _ H). simpl.
    assert (files_written t = []) as Hw.
    { inversion Hcase as [? ? Hc| |? ? ? Hc|]; subst;
        by destruct (only_calls_silent _ Hc) as (_ & _ & Hw & _). }
    rewrite files_written_app, Hw. split; [done|].
    exists text. split; [done|].
    change (Mkdir ?d :: ?l) with ([Mkdir d] ++ l)%list.
    rewrite !replay_app. simpl. apply lookup_insert_eq.
Qed.

Lemma files_written_per_run_witness :
  (workflow (Sample.args "release-prep" "true") = "code-review" \/
   workflow (Sample.args "release-prep" "true") = "release-prep") /\
  ((engine_calls (run_release_prep
                    (Sample.world (Gives Sample.no_output) (Gives Sample.report) None)
                    (Path "/tmp/out") "").1 <> [] ->
    files_written
      (trace_of (Sample.world (Gives Sample.no_output) (Gives Sample.report) None)
                (Sample.args "release-prep" "true")) =
      [Path (output_dir (Sample.args "release-prep" "true")) </>
         (workflow (Sample.args "release-prep" "true") +:+ "-report.md");
       Path (output_dir (Sample.args "release-prep" "true")) </> "summary.md"]) /\
   (engine_calls (run_release_prep
                    (Sample.world (Gives Sample.no_output) (Gives Sample.report) None)
                    (Path "/tmp/out") "").1 = [] ->
    workflow (Sample.args "release-prep" "true") = "code-review" /\
    release_prep_result Sample.report = no_changed_files /\
    files_written
      (trace_of (Sample.world (Gives Sample.no_output) (Gives Sample.report) None)
                (Sample.args "release-prep" "true")) = [])).
Proof.
  apply (files_written_per_run
           (Sample.world (Gives Sample.no_output) (Gives Sample.report) None)
           (Sample.args "release-prep" "true") _
           (Returns (release_prep_result Sample.report)) ∅).
  exists run_release_prep. split; reflexivity.
Defined.

(** * Further properties of the script *)

(** ** The changed-file list *)

Lemma split_no_sep sep s : Forall (fun x => has_char sep x = false) (Py.split sep s).
Proof.
  induction s as [|a s IH]; simpl; [by repeat constructor|].
  destruct (Ascii.eqb a sep) eqn:Ha; [by constructor|].
  destruct (Py.split sep s) as [|h tl]; [by repeat constructor; simpl; rewrite Ha|].
  inversion IH; subst. constructor; [|done]. simpl. by rewrite Ha.
Qed.

(** X1. Every entry of the changed-file list is a non-empty name without a
    line feed, whatever the diff printed. *)
Theorem changed_files_entries out f :
  f ∈ changed_files_of out -> f <> "" /\ has_char "010" f = false.
Proof.
  unfold changed_files_of. intros [Hne Hin]%list_elem_of_filter. split; [done|].
  pose proof (split_no_sep "010" (Py.strip out)) as Hall.
  by apply (proj1 (Forall_forall _ _) Hall).
Qed.

Lemma changed_files_entries_witness :
  "b.py" <> "" /\ has_char "010" "b.py" = false.
Proof.
  apply (changed_files_entries (stdout Sample.two_files)).
  vm_compute. apply list_elem_of_further, list_elem_of_here.
Defined.

Lemma lstrip_all_space s : Py.lstrip s = "" <-> all_space s = true.
Proof.
  induction s as [|a s IH]; simpl; [done|].
  destruct (Py.is_space a); simpl; [done|]. split; discriminate.
Qed.

Lemma rstrip_all_space s : Py.rstrip s = "" <-> all_space s = true.
Proof.
  induction s as [|a s IH]; simpl; [done|].
  destruct (Py.is_space a); simpl.
  - rewrite <- IH. destruct (Py.rstrip s); simpl; [done|]. split; discriminate.
  - split; discriminate.
Qed.

Lemma strip_empty_iff_blank out : Py.strip out = "" <-> all_space out = true.
Proof.
  unfold Py.strip. rewrite rstrip_all_space. split.
  - intros H. apply lstrip_all_space.
    destruct (Py.lstrip out) as [|c r] eqn:Hl; [done|].
    apply lstrip_head in Hl. simpl in H. by rewrite Hl in H.
  - intros H. apply lstrip_all_space in H. by rewrite H.
Qed.

(** X2. The changed-file list is empty exactly when the diff printed nothing
    but white space. *)
Theorem changed_files_empty_iff_blank out :
  changed_files_of out = [] <-> all_space out = true.
Proof. rewrite changed_files_of_nil. apply strip_empty_iff_blank. Qed.

Lemma lstrip_length s : (String.length (Py.lstrip s) <= String.length s)%nat.
Proof.
  induction s as [|a s IH]; simpl; [done|].
  destruct (Py.is_space a); simpl; lia.
Qed.

(** A string that [lstrip] leaves alone starts with no white space. *)
Lemma lstrip_fixed_head c s : Py.lstrip (String c s) = String c s -> Py.is_space c = false.
Proof.
  simpl. destruct (Py.is_space c); [|done].
  intros H. pose proof (lstrip_length s) as Hlen. rewrite H in Hlen. simpl in Hlen. lia.
Qed.

Lemma rstrip_app_fixed p z :
  z <> "" -> Py.rstrip z = z -> Py.rstrip (p +:+ z) = p +:+ z.
Proof.
  intros Hz Hfix. induction p as [|c p IH]; [done|].
  rewrite append_cons. simpl. rewrite IH.
  destruct (p +:+ z) eqn:Hpz; [|by rewrite andb_false_r].
  destruct p; [done | discriminate Hpz].
Qed.

Lemma rstrip_app_space s w :
  all_space w = true -> Py.rstrip (s +:+ w) = Py.rstrip s.
Proof.
  intros Hw. induction s as [|c s IH]; [by apply rstrip_all_space|].
  rewrite append_cons. simpl. by rewrite IH.
Qed.

Lemma split_clean sep x : has_char sep x = false -> Py.split sep x = [x].
Proof.
  induction x as [|a x IH]; simpl; [done|].
  intros [Ha Hx]%orb_false_elim. rewrite Ha, (IH Hx). done.
Qed.

Lemma split_app_sep sep x rest :
  has_char sep x = false ->
  Py.split sep (x +:+ String sep rest) = x :: Py.split sep rest.
Proof.
  induction x as [|a x IH]; intros Hx.
  - change ("" +:+ String sep rest) with (String sep rest). simpl.
    by rewrite Ascii.eqb_refl.
  - simpl in Hx. apply orb_false_elim in Hx as [Ha Hx].
    rewrite append_cons. simpl. rewrite Ha, (IH Hx). done.
Qed.

Lemma split_join (names : list string) :
  names <> [] ->
  Forall (fun n => has_char "010" n = false) names ->
  Py.split "010" (Py.join nl names) = names.
Proof.
  intros Hne Hall. induction Hall as [|x l Hx Hl IH]; [done|].
  destruct l as [|y l].
  - by apply split_clean.
  - change (Py.join nl (x :: y :: l)) with (x +:+ String "010" (Py.join nl (y :: l))).
    rewrite (split_app_sep _ _ _ Hx). f_equal. by apply IH.
Qed.

Lemma name_lines_join (names : list string) :
  names <> [] -> name_lines names = Py.join nl names +:+ nl.
Proof.
  unfold name_lines. induction names as [|x l IH]; [done|]. intros _.
  change (map _ (x :: l)) with ((x +:+ nl) :: map (fun n => n +:+ nl) l).
  rewrite fstring_cons. destruct l as [|y l]; [exact (append_nil_r _)|].
  rewrite IH by done.
  change (Py.join nl (x :: y :: l)) with (x +:+ nl +:+ Py.join nl (y :: l)).
  by rewrite !append_assoc.
Qed.

Lemma rstrip_join (names : list string) :
  Forall (fun n => n <> "") names ->
  (forall z, last names = Some z -> Py.rstrip z = z) ->
  Py.rstrip (Py.join nl names) = Py.join nl names.
Proof.
  intros Hall. induction Hall as [|x l Hx Hl IH]; intros Hlast; [done|].
  destruct l as [|y l].
  - by apply Hlast.
  - change (Py.join nl (x :: y :: l)) with (x +:+ nl +:+ Py.join nl (y :: l)).
    rewrite <- append_assoc. apply rstrip_app_fixed.
    + inversion Hl as [|? ? Hy _]; subst.
      destruct y as [|c y]; [done|]. by destruct l.
    + apply IH. intros z Hz. apply Hlast. by rewrite last_cons, Hz.
Qed.

(** X3. Round trip with the output of [git diff --name-only]: when the diff
    prints each name followed by a line feed, the names being non-empty and
    free of line feeds, the first not starting and the last not ending with
    white space, the changed-file list is that list of names, in order. *)
Theorem changed_files_of_name_lines (names : list string) :
  Forall (fun n => n <> "" /\ has_char "010" n = false) names ->
  (forall h, head names = Some h -> Py.lstrip h = h) ->
  (forall z, last names = Some z -> Py.rstrip z = z) ->
  changed_files_of (name_lines names) = names.
Proof.
  intros Hall Hhead Hlast.
  destruct names as [|h tl]; [done|].
  assert (Forall (fun n : string => n <> "") (h :: tl)) as Hne
    by (eapply Forall_impl; [exact Hall | by intros ? []]).
  assert (Forall (fun n => has_char "010" n = false) (h :: tl)) as Hnl
    by (eapply Forall_impl; [exact Hall | by intros ? []]).
  assert (Py.strip (name_lines (h :: tl)) = Py.join nl (h :: tl)) as Hstrip.
  { unfold Py.strip.
    assert (Py.lstrip (name_lines (h :: tl)) = name_lines (h :: tl)) as ->.
    { inversion Hne as [|? ? Hh _]; subst. destruct h as [|c h]; [done|].
      pose proof (lstrip_fixed_head c h (Hhead _ eq_refl)) as Hc.
      unfold name_lines.
      change (map _ (String c h :: tl))
        with ((String c h +:+ nl) :: map (fun n => n +:+ nl) tl).
      rewrite fstring_cons, !append_cons. simpl. by rewrite Hc. }
    rewrite name_lines_join by done.
    rewrite rstrip_app_space by done. by apply rstrip_join. }
  unfold changed_files_of. rewrite Hstrip, split_join by done.
  clear -Hne. induction Hne as [|x l Hx _ IH]; [done|].
  by rewrite filter_cons_True, IH.
Qed.

Lemma changed_files_of_name_lines_witness :
  changed_files_of (name_lines ["src/a.py"; "docs/read me.md"; "b.py"]) =
    ["src/a.py"; "docs/read me.md"; "b.py"].
Proof.
  apply changed_files_of_name_lines.
  - repeat constructor; done.
  - intros h [= <-]. reflexivity.
  - intros z [= <-]. reflexivity.
Defined.

Lemma has_char_lstrip c s : has_char c s = false -> has_char c (Py.lstrip s) = false.
Proof.
  induction s as [|a s IH]; simpl; [done|].
  intros [Ha Hs]%orb_false_elim. destruct (Py.is_space a); [by apply IH|].
  simpl. by rewrite Ha, Hs.
Qed.

Lemma has_char_rstrip c s : has_char c s = false -> has_char c (Py.rstrip s) = false.
Proof.
  induction s as [|a s IH]; simpl; [done|].
  intros [Ha Hs]%orb_false_elim.
  destruct (Py.is_space a && Py.is_empty (Py.rstrip s)); [done|].
  simpl. by rewrite Ha, IH.
Qed.

Lemma lstrip_app_space s w :
  all_space s = false -> Py.lstrip (s +:+ w) = Py.lstrip s +:+ w.
Proof.
  induction s as [|a s IH]; [done|]. intros H.
  rewrite append_cons. simpl in *. destruct (Py.is_space a); [by apply IH|done].
Qed.

(** X4. The white space around the whole output is stripped, not the white
    space of each line: when the diff lists a single name, free of line
    feeds and not blank, the changed-file list is that name without its
    leading and trailing white space. *)
Theorem changed_files_of_single_name (n : string) :
  has_char "010" n = false -> all_space n = false ->
  changed_files_of (name_lines [n]) = [Py.strip n].
Proof.
  intros Hnl Hsp.
  assert (Py.strip (name_lines [n]) = Py.strip n) as Hstrip.
  { unfold name_lines, Py.strip. simpl map. rewrite fstring_cons.
    change (fstring []) with "". rewrite append_nil_r.
    rewrite lstrip_app_space by done. by apply rstrip_app_space. }
  assert (Py.strip n <> "") as Hne.
  { intros H. apply strip_empty_iff_blank in H. congruence. }
  unfold changed_files_of. rewrite Hstrip, split_clean.
  - by rewrite filter_cons_True.
  - by apply has_char_rstrip, has_char_lstrip.
Qed.

Lemma changed_files_of_single_name_witness :
  changed_files_of (name_lines [" notes.txt "]) = [Py.strip " notes.txt "].
Proof. apply changed_files_of_single_name; reflexivity. Defined.

(** ** The release-prep handler, forwards *)

Lemma run_release_prep_reported w d cfg wf report :
  setup_succeeds w "release-prep" wf ->
  engine_run w (release_call wf) = Gives report ->
  run_release_prep w d cfg =
    ((setup_trace "release-prep" ++
      [EngineRun (release_call wf);
       WriteText (d </> "release-prep-report.md") (to_markdown report);
       WriteText (d </> "summary.md") (release_prep_summary report)])%list,
     Returns (release_prep_result report)).
Proof.
  intros (H1 & H2 & H3 & H4) Hrun. unfold run_release_prep.
  rewrite H1, H2, H3, H4. simpl. unfold release_call in Hrun. by rewrite Hrun.
Qed.

(** X5. When the setup succeeds and the engine gives a report, the
    release-prep handler calls [engine.run] once, without a file list, and
    never runs a subprocess; afterwards release-prep-report.md holds the
    markdown rendering of the report and summary.md holds a text with the
    security status, the test coverage, "Yes" or "No" for the changelog
    according to its truth value, and the passed and total gate counts as
    "P/T". *)
Theorem release_prep_writes_report_and_summary w d cfg wf report fs :
  setup_succeeds w "release-prep" wf ->
  engine_run w (release_call wf) = Gives report ->
  exists t summary,
    run_release_prep w d cfg = (t, Returns (release_prep_result report)) /\
    engine_calls t =
      [{| call_workflow := wf; call_files := None; call_output_format := "markdown" |}] /\
    subprocess_calls t = [] /\
    replay fs t !! (d </> "release-prep-report.md") = Some (to_markdown report) /\
    replay fs t !! (d </> "summary.md") = Some summary /\
    contains ("**Security audit:** " +:+ Py.str (security_status report) +:+ nl) summary /\
    contains ("**Test coverage:** " +:+ Py.str (test_coverage report) +:+ nl) summary /\
    contains ("**Changelog generated:** " +:+
              (if Py.truthy (changelog report) then "Yes" else "No") +:+ nl) summary /\
    contains ("**Quality gates passed:** " +:+ pretty (gates_passed report) +:+ "/" +:+
              pretty (gates_total report) +:+ nl) summary.
Proof.
  intros Hs Hrun. eexists _, (release_prep_summary report).
  split; [exact (run_release_prep_reported _ d cfg _ _ Hs Hrun)|].
  split; [done|]. split; [done|].
  rewrite !replay_app. simpl.
  split.
  { rewrite lookup_insert_ne; [apply lookup_insert_eq|].
    intros Heq. symmetry in Heq. revert Heq.
    apply (report_not_summary d "release-prep"). by right. }
  split; [apply lookup_insert_eq|].
  unfold release_prep_summary.
  set (yn := if Py.truthy (changelog report) then "Yes" else "No").
  repeat split.
  - exact (contains_fstring ["## Attune AI Release Prep"; nl; nl]
             ["**Security audit:** "; Py.str (security_status report); nl] _).
  - exact (contains_fstring
             ["## Attune AI Release Prep"; nl; nl;
              "**Security audit:** "; Py.str (security_status report); nl; nl]
             ["**Test coverage:** "; Py.str (test_coverage report); nl] _).
  - exact (contains_fstring
             ["## Attune AI Release Prep"; nl; nl;
              "**Security audit:** "; Py.str (security_status report); nl; nl;
              "**Test coverage:** "; Py.str (test_coverage report); nl; nl]
             ["**Changelog generated:** "; yn; nl] _).
  - exact (contains_fstring
             ["## Attune AI Release Prep"; nl; nl;
              "**Security audit:** "; Py.str (security_status report); nl; nl;
              "**Test coverage:** "; Py.str (test_coverage report); nl; nl;
              "**Changelog generated:** "; yn; nl; nl]
             ["**Quality gates passed:** "; pretty (gates_passed report); "/";
              pretty (gates_total report); nl] _).
Qed.

Lemma release_prep_writes_report_and_summary_witness :
  exists t summary,
    run_release_prep (Sample.world (Fails "git: not found") (Gives Sample.report) None)
                     (Path "/tmp/out") "" =
      (t, Returns (release_prep_result Sample.report)) /\
    engine_calls t =
      [{| call_workflow := "release-prep"; call_files := None;
          call_output_format := "markdown" |}] /\
    subprocess_calls t = [] /\
    replay ∅ t !! (Path "/tmp/out" </> "release-prep-report.md") =
      Some (to_markdown Sample.report) /\
    replay ∅ t !! (Path "/tmp/out" </> "summary.md") = Some summary /\
    contains ("**Security audit:** " +:+ Py.str (security_status Sample.report) +:+ nl)
             summary /\
    contains ("**Test coverage:** " +:+ Py.str (test_coverage Sample.report) +:+ nl)
             summary /\
    contains ("**Changelog generated:** " +:+
              (if Py.truthy (changelog Sample.report) then "Yes" else "No") +:+ nl)
             summary /\
    contains ("**Quality gates passed:** " +:+ pretty (gates_passed Sample.report) +:+
              "/" +:+ pretty (gates_total Sample.report) +:+ nl) summary.
Proof.
  apply (release_prep_writes_report_and_summary _ _ _ "release-prep").
  - repeat split.
  - reflexivity.
Defined.

(** ** The code-review handler, backwards *)

(** X6. Whenever the code-review handler returns, either the engine was not
    called and the result is the fixed "No changed files detected." mapping,
    or the engine was called once with a non-empty file list and gave a
    report, and the result carries the summary "N issues found in M files",
    the issue count and the critical count of that report and its
    cost-savings estimate as cost_saved. *)
Theorem code_review_result_entries w d cfg t res :
  run_code_review w d cfg = (t, Returns res) ->
  (engine_calls t = [] /\
   res = <["summary" := PyStr "No changed files detected."]>
           (<["issues_found" := PyInt 0]> (<["cost_saved" := PyStr "N/A"]> ∅))) \/
  (exists c files report,
     engine_calls t = [c] /\
     call_files c = Some files /\ files <> [] /\
     engine_run w c = Gives report /\
     res !! "summary" =
       Some (PyStr (pretty (issue_count report) +:+ " issues found in " +:+
                    pretty (length files) +:+ " files")) /\
     res !! "issues_found" = Some (PyInt (issue_count report)) /\
     res !! "critical_count" = Some (PyInt (critical_count report)) /\
     res !! "cost_saved" = Some (cost_savings report)).
Proof.
  unfold run_code_review.
  destruct (import_module w "attune.workflows") as [[]|?]; simpl; [|done].
  destruct (import_module w "attune.workflows.registry") as [[]|?]; simpl; [|done].
  destruct (WorkflowEngine w) as [[]|?]; simpl; [|done].
  destruct (get_workflow w "code-review") as [wf|?]; simpl; [|done].
  destruct (subprocess_run w git_diff_argv) as [cp|?]; simpl; [|done].
  destruct (changed_files_of (stdout cp)) as [|f fs] eqn:Hcf; simpl.
  { intros [= <- <-]. by left. }
  destruct (engine_run w _) as [rep|?] eqn:Hrun; simpl; [|done].
  intros [= <- <-]. right. eexists _, (f :: fs), rep.
  repeat split; done.
Qed.

Lemma code_review_result_entries_witness :
  (engine_calls (run_code_review
                   (Sample.world (Gives Sample.two_files) (Gives Sample.report) None)
                   (Path "/tmp/out") "").1 = [] /\
   code_review_result ["a.py"; "b.py"] Sample.report =
     <["summary" := PyStr "No changed files detected."]>
       (<["issues_found" := PyInt 0]> (<["cost_saved" := PyStr "N/A"]> ∅))) \/
  (exists c files report,
     engine_calls (run_code_review
                     (Sample.world (Gives Sample.two_files) (Gives Sample.report) None)
                     (Path "/tmp/out") "").1 = [c] /\
     call_files c = Some files /\ files <> [] /\
     engine_run (Sample.world (Gives Sample.two_files) (Gives Sample.report) None) c
       = Gives report /\
     code_review_result ["a.py"; "b.py"] Sample.report !! "summary" =
       Some (PyStr (pretty (issue_count report) +:+ " issues found in " +:+
                    pretty (length files) +:+ " files")) /\
     code_review_result ["a.py"; "b.py"] Sample.report !! "issues_found"
       = Some (PyInt (issue_count report)) /\
     code_review_result ["a.py"; "b.py"] Sample.report !! "critical_count"
       = Some (PyInt (critical_count report)) /\
     code_review_result ["a.py"; "b.py"] Sample.report !! "cost_saved"
       = Some (cost_savings report)).
Proof.
  apply (code_review_result_entries _ (Path "/tmp/out") "").
  reflexivity.
Defined.

(** ** The process, whatever the command line *)

Lemma process_unknown_workflow w args :
  workflow_runners !! workflow args = None ->
  process w args =
    ([Mkdir (Path (output_dir args)); Traceback ("'" +:+ workflow args +:+ "'")], 1).
Proof. intros H. unfold process, main, getitem. by rewrite H. Qed.

Lemma handler_run_exists w args (r : handler) :
  workflow_runners !! workflow args = Some r ->
  exists t c, handler_run w args t c.
Proof.
  intros Hr. destruct (r w (Path (output_dir args)) (config args)) as [t c] eqn:Hrun.
  exists t, c, r. by split.
Qed.




(** X8. End to end for a code-review run with changed files and a report
    from the engine: the exit status is 1 when fail-on-critical is "true" and
    the critical count of the report is positive, and 0 otherwise. *)
Theorem code_review_exit_status w args cp wf report :
  workflow args = "code-review" ->
  diff_completes w cp ->
  get_workflow w "code-review" = Gives wf ->
  changed_files_of (stdout cp) <> [] ->
  engine_run w (review_call wf (changed_files_of (stdout cp))) = Gives report ->
  exit_status w args =
    if bool_decide (fail_on_critical args = "true") && (0 <? critical_count report)
    then 1 else 0.
Proof.
  intros Hwf Hd Hg Hne Hrun.
  pose proof (run_code_review_reported w (Path (output_dir args)) (config args)
                cp wf report Hd Hg Hne Hrun) as Hr.
  assert (handler_run w args
            (diff_trace ++
             [EngineRun (review_call wf (changed_files_of (stdout cp)));
              WriteText (Path (output_dir args) </> "code-review-report.md")
                        (to_markdown report);
              WriteText (Path (output_dir args) </> "summary.md")
                        (code_review_summary (changed_files_of (stdout cp)) report)])
            (Returns (code_review_result (changed_files_of (stdout cp)) report))) as H.
  { exists run_code_review. by rewrite Hwf. }
  destruct (process_handler_returns _ _ _ _ H) as (s & _ & Hp).
  unfold exit_status. rewrite Hp.
  change (gate_closes args (code_review_result (changed_files_of (stdout cp)) report))
    with (bool_decide (fail_on_critical args = "true") && (0 <? critical_count report)).
  by destruct (bool_decide (fail_on_critical args = "true") && (0 <? critical_count report)).
Qed.

Lemma code_review_exit_status_witness :
  exit_status (Sample.world (Gives Sample.two_files) (Gives Sample.report) None)
              (Sample.args "code-review" "true") =
    if bool_decide (fail_on_critical (Sample.args "code-review" "true") = "true")
       && (0 <? critical_count Sample.report)
    then 1 else 0.
Proof.
  apply (code_review_exit_status _ _ Sample.two_files "code-review").
  - reflexivity.
  - repeat split. by exists "code-review".
  - reflexivity.
  - discriminate.
  - reflexivity.
Defined.



(** ** The file system around a run *)

(** A file that a trace neither writes nor appends to is left as it was. *)
Lemma replay_frame fs t p :
  p ∉ files_written t -> appended_to p t = [] -> replay fs t !! p = fs !! p.
Proof.
  revert fs. induction t as [|e t IH]; intros fs Hw Ha; [done|].
  rewrite replay_cons. destruct e; simpl in *; try (by apply IH).
  - apply not_elem_of_cons in Hw as [Hne Hw].
    rewrite IH by done. by apply lookup_insert_ne.
  - destruct (decide (p0 = p)) as [->|Hne]; [done|].
    rewrite IH by done. by apply lookup_insert_ne.
Qed.

(** What was appended to a file that the trace does not overwrite comes
    after what the file held. *)
Lemma replay_appended fs t p :
  p ∉ files_written t -> appended_to p t <> [] ->
  replay fs t !! p = Some (default "" (fs !! p) +:+ fstring (appended_to p t)).
Proof.
  revert fs. induction t as [|e t IH]; intros fs Hw Ha; [done|].
  rewrite replay_cons. destruct e; simpl in *; try (by apply IH).
  - apply not_elem_of_cons in Hw as [Hne Hw].
    rewrite IH by done. by rewrite lookup_insert_ne.
  - destruct (decide (p0 = p)) as [->|Hne].
    + destruct (appended_to p t) as [|x l] eqn:Happ.
      * rewrite replay_frame by done. rewrite lookup_insert_eq.
        by rewrite fstring_cons, append_nil_r.
      * rewrite IH by done. rewrite lookup_insert_eq. simpl default.
        by rewrite (fstring_cons data), append_assoc.
    + rewrite IH by done. by rewrite lookup_insert_ne.
Qed.

(** The files a run can write, and the file it can append to. *)
Lemma process_files w args :
  files_written (trace_of w args) ⊆
    [Path (output_dir args) </> (workflow args +:+ "-report.md");
     Path (output_dir args) </> "summary.md"] /\
  forall p,
    appended_to p (trace_of w args) <> [] ->
    exists gh, environ w !! "GITHUB_OUTPUT" = Some gh /\ p = Path gh.
Proof.
  unfold trace_of.
  destruct (workflow_runners !! workflow args) as [r|] eqn:Hr.
  - destruct (handler_run_exists w args r Hr) as (t & c & H).
    pose proof (handler_run_cases _ _ _ _ H) as Hcase.
    destruct (handler_trace_silent _ _ _ _ H) as (_ & _ & Ha).
    assert (files_written t ⊆
              [Path (output_dir args) </> (workflow args +:+ "-report.md");
               Path (output_dir args) </> "summary.md"]) as Hw.
    { inversion Hcase as [? ? Hc|? ? Hc|? ? ? Hc|? ? ? ? Hc]; subst;
        destruct (only_calls_silent _ Hc) as (_ & _ & Hw & _);
        rewrite ?files_written_app, Hw; try done; by intros ? ?%elem_of_nil. }
    destruct c as [res | e].
    + destruct (published_silent w (Path (output_dir args)) res) as (_ & _ & Hpw & _).
      destruct (process_handler_returns _ _ _ _ H) as (s & _ & Hp). rewrite Hp.
      assert (forall p, appended_to p (published w (Path (output_dir args)) res) <> [] ->
                exists gh, environ w !! "GITHUB_OUTPUT" = Some gh /\ p = Path gh) as Hpa.
      { intros p. unfold published.
        destruct (environ w !! "GITHUB_OUTPUT") as [[|a gh]|]; [done| |done].
        intros Hne. exists (String a gh). split; [done|].
        destruct (decide (Path (String a gh) = p)) as [<-|Hd]; [done|].
        simpl in Hne. by rewrite !decide_False in Hne. }
      destruct (gate_closes args res); simpl;
        rewrite !files_written_app, Hpw; simpl; rewrite app_nil_r;
        (split; [done|]); intros p; rewrite !appended_to_app, Ha; simpl;
        rewrite app_nil_r; apply Hpa.
    + destruct (handler_raises_exception _ _ _ _ H) as [text ->].
      rewrite (process_handler_raises _ _ _ _ H). simpl.
      split.
      * rewrite files_written_app. simpl.
        intros x [Hx | ->%list_elem_of_singleton]%elem_of_app; [by apply Hw|].
        apply list_elem_of_further, list_elem_of_here.
      * intros p. by rewrite appended_to_app, Ha.
  - rewrite (process_unknown_workflow _ _ Hr). simpl.
    split; [by intros ? ?%elem_of_nil | done].
Qed.



(** X11. Publication appends: when the handler returned and [GITHUB_OUTPUT]
    names a file other than the two files of the output directory, that file
    afterwards holds what it held before, or nothing if it did not exist,
    followed by the four records. *)
Theorem github_output_is_appended_to w args t res gh fs :
  handler_run w args t (Returns res) ->
  environ w !! "GITHUB_OUTPUT" = Some gh -> gh <> "" ->
  Path gh <> Path (output_dir args) </> (workflow args +:+ "-report.md") ->
  Path gh <> Path (output_dir args) </> "summary.md" ->
  replay fs (trace_of w args) !! Path gh =
    Some (default "" (fs !! Path gh) +:+
          "report=" +:+ Pathlib.str (Path (output_dir args)) +:+ nl +:+
          "summary=" +:+ Py.str (Py.get res "summary" PyNone) +:+ nl +:+
          "issues_found=" +:+ Py.str (Py.get res "issues_found" PyNone) +:+ nl +:+
          "cost_saved=" +:+ Py.str (Py.get res "cost_saved" (PyStr "N/A")) +:+ nl).
Proof.
  intros H Hgh Hne Hr Hs. destruct (process_files w args) as [Hw _].
  destruct (handler_trace_silent _ _ _ _ H) as (_ & _ & Ha).
  destruct (process_handler_returns _ _ _ _ H) as (s & _ & Hp).
  assert (appended_to (Path gh) (trace_of w args) =
            appended_to (Path gh) (published w (Path (output_dir args)) res)) as Happ.
  { unfold trace_of. rewrite Hp.
    destruct (gate_closes args res); simpl;
      rewrite !appended_to_app, Ha; simpl; by rewrite app_nil_r. }
  assert (appended_to (Path gh) (published w (Path (output_dir args)) res) =
            ["report=" +:+ Pathlib.str (Path (output_dir args)) +:+ nl;
             "summary=" +:+ Py.str (Py.get res "summary" PyNone) +:+ nl;
             "issues_found=" +:+ Py.str (Py.get res "issues_found" PyNone) +:+ nl;
             "cost_saved=" +:+ Py.str (Py.get res "cost_saved" (PyStr "N/A")) +:+ nl])
    as Hpub.
  { unfold published. rewrite Hgh. destruct gh as [|a gh]; [done|]. simpl.
    by rewrite !decide_True. }
  rewrite replay_appended.
  - rewrite Happ, Hpub. f_equal. f_equal.
    rewrite !fstring_cons. change (fstring []) with "".
    by rewrite append_nil_r, !append_assoc.
  - intros Hin. apply Hw in Hin.
    apply elem_of_cons in Hin as [Heq | Heq%list_elem_of_singleton]; done.
  - by rewrite Happ, Hpub.
Qed.

Lemma github_output_is_appended_to_witness :
  replay {[ Path "/tmp/github_output" := "earlier=1" +:+ nl ]}
         (trace_of (Sample.world (Gives Sample.no_output) (Gives Sample.report)
                                 (Some "/tmp/github_output"))
                   (Sample.args "release-prep" "true"))
    !! Path "/tmp/github_output" =
    Some (default "" (({[ Path "/tmp/github_output" := "earlier=1" +:+ nl ]} : filesystem)
                        !! Path "/tmp/github_output") +:+
          "report=" +:+ Pathlib.str (Path (output_dir (Sample.args "release-prep" "true")))
            +:+ nl +:+
          "summary=" +:+ Py.str (Py.get (release_prep_result Sample.report) "summary" PyNone)
            +:+ nl +:+
          "issues_found=" +:+
            Py.str (Py.get (release_prep_result Sample.report) "issues_found" PyNone)
            +:+ nl +:+
          "cost_saved=" +:+
            Py.str (Py.get (release_prep_result Sample.report) "cost_saved" (PyStr "N/A"))
            +:+ nl).
Proof.
  eapply github_output_is_appended_to.
  - exists run_release_prep. split; reflexivity.
  - reflexivity.
  - discriminate.
  - discriminate.
  - discriminate.
Defined.

(** ** What a run calls, and in what order *)



Lemma subprocess_calls_app t1 t2 :
  subprocess_calls (t1 ++ t2) = (subprocess_calls t1 ++ subprocess_calls t2)%list.
Proof. apply omap_app. Qed.

(** The trace of a run whose handler ran: the directory, the events of the
    handler, then events that call nothing. *)
Lemma process_trace_shape w args t c :
  handler_run w args t c ->
  exists tail,
    trace_of w args = (Mkdir (Path (output_dir args)) :: t ++ tail)%list /\
    engine_calls tail = [] /\ subprocess_calls tail = [] /\ mkdirs tail = [].
Proof.
  intros H. unfold trace_of. destruct c as [res | e].
  - destruct (process_handler_returns _ _ _ _ H) as (s & _ & Hp). rewrite Hp.
    assert (forall x, engine_calls (published w (Path (output_dir args)) res ++ [x]) =
                        engine_calls [x] /\
                      subprocess_calls (published w (Path (output_dir args)) res ++ [x]) =
                        subprocess_calls [x] /\
                      mkdirs (published w (Path (output_dir args)) res ++ [x]) =
                        mkdirs [x]) as Hpub.
    { intros x. unfold published.
      by destruct (environ w !! "GITHUB_OUTPUT") as [[|a gh]|]. }
    destruct (gate_closes args res); simpl; eexists; (split; [reflexivity|]);
      by rewrite (proj1 (Hpub _)), (proj1 (proj2 (Hpub _))), (proj2 (proj2 (Hpub _))).
  - destruct (handler_raises_exception _ _ _ _ H) as [text ->].
    rewrite (process_handler_raises _ _ _ _ H). simpl. by eexists.
Qed.

(** X12. The handlers call [engine.run] at most once per run, always for
    markdown output: the release-prep run without a file list and without
    ever running a subprocess, the code-review run with a non-empty file
    list and after running exactly [git diff --name-only HEAD~1]. *)
Theorem collaborator_calls w args :
  (length (engine_calls (trace_of w args)) <= 1)%nat /\
  (forall c, c ∈ engine_calls (trace_of w args) ->
     call_output_format c = "markdown" /\
     (workflow args = "release-prep" /\ call_files c = None /\
      subprocess_calls (trace_of w args) = [] \/
      workflow args = "code-review" /\
      (exists files, call_files c = Some files /\ files <> []) /\
      subprocess_calls (trace_of w args) = [["git"; "diff"; "--name-only"; "HEAD~1"]])).
Proof.
  destruct (workflow_runners !! workflow args) as [r|] eqn:Hr.
  - destruct (handler_run_exists w args r Hr) as (t & c & H).
    destruct (process_trace_shape _ _ _ _ H) as (tail & -> & Hte & Hts & _).
    simpl. rewrite engine_calls_app, subprocess_calls_app, Hte, Hts, !app_nil_r.
    destruct H as (r' & Hr' & Hrun). rewrite Hr in Hr'. injection Hr' as <-.
    destruct (workflow_runners_inv _ _ Hr) as [[Hwf ->] | [Hwf ->]]; rewrite Hwf;
      revert Hrun; generalize (Path (output_dir args)); intros d.
    + unfold run_code_review.
      destruct (import_module w "attune.workflows") as [[]|?]; simpl;
        [|intros [= <- <-]; split; [simpl; lia | by intros ? ?%elem_of_nil]].
      destruct (import_module w "attune.workflows.registry") as [[]|?]; simpl;
        [|intros [= <- <-]; split; [simpl; lia | by intros ? ?%elem_of_nil]].
      destruct (WorkflowEngine w) as [[]|?]; simpl;
        [|intros [= <- <-]; split; [simpl; lia | by intros ? ?%elem_of_nil]].
      destruct (get_workflow w "code-review") as [wf|?]; simpl;
        [|intros [= <- <-]; split; [simpl; lia | by intros ? ?%elem_of_nil]].
      destruct (subprocess_run w git_diff_argv) as [cp|?]; simpl;
        [|intros [= <- <-]; split; [simpl; lia | by intros ? ?%elem_of_nil]].
      destruct (changed_files_of (stdout cp)) as [|f fs] eqn:Hcf; simpl.
      { intros [= <- <-]; split; [simpl; lia | by intros ? ?%elem_of_nil]. }
      destruct (engine_run w _) as [rep|?]; simpl; intros [= <- <-];
        (split; [simpl; lia|]); intros c' ->%list_elem_of_singleton;
        (split; [done|]); right; (split; [done|]); (split; [by eexists|done]).
    + unfold run_release_prep.
      destruct (import_module w "attune.workflows") as [[]|?]; simpl;
        [|intros [= <- <-]; split; [simpl; lia | by intros ? ?%elem_of_nil]].
      destruct (import_module w "attune.workflows.registry") as [[]|?]; simpl;
        [|intros [= <- <-]; split; [simpl; lia | by intros ? ?%elem_of_nil]].
      destruct (WorkflowEngine w) as [[]|?]; simpl;
        [|intros [= <- <-]; split; [simpl; lia | by intros ? ?%elem_of_nil]].
      destruct (get_workflow w "release-prep") as [wf|?]; simpl;
        [|intros [= <- <-]; split; [simpl; lia | by intros ? ?%elem_of_nil]].
      destruct (engine_run w _) as [rep|?]; simpl; intros [= <- <-];
        (split; [simpl; lia|]); intros c' ->%list_elem_of_singleton;
        (split; [done|]); left; done.
  - unfold trace_of. rewrite (process_unknown_workflow _ _ Hr). simpl.
    split; [lia | by intros ? ?%elem_of_nil].
Qed.


(** X14. The [--config] value has no effect: two runs that differ in it
    alone cause the same events and exit with the same status. *)
Theorem config_is_ignored w args cfg :
  process w (with_config args cfg) = process w args.
Proof.
  unfold process, main, getitem. simpl.
  destruct (workflow_runners !! workflow args) as [r|] eqn:Hr; [|done].
  destruct (workflow_runners_inv _ _ Hr) as [[_ ->] | [_ ->]]; reflexivity.
Qed.

(** X15. If importing [attune.workflows] fails, nothing else is called:
    neither the registry import, the engine, nor git.  The run writes the
    error summary with the text of the import error, prints the error
    annotation with that text and exits with status 1. *)
Theorem import_failure_stops_the_run w args text :
  workflow args = "code-review" \/ workflow args = "release-prep" ->
  import_module w "attune.workflows" = Fails text ->
  process w args =
    ([Mkdir (Path (output_dir args));
      ImportModule "attune.workflows";
      WriteText (Path (output_dir args) </> "summary.md")
        ("## Attune AI - Error" +:+ nl +:+ nl +:+
         "Workflow `" +:+ workflow args +:+ "` failed:" +:+ nl +:+ nl +:+
         "```" +:+ nl +:+ text +:+ nl +:+ "```" +:+ nl);
      Stderr ("::error::Attune workflow failed: " +:+ text)], 1).
Proof.
  intros Hwf Himp.
  assert (handler_run w args [ImportModule "attune.workflows"] (Raises (Exception text)))
    as H.
  { destruct Hwf as [Hwf | Hwf]; [exists run_code_review | exists run_release_prep];
      rewrite Hwf; (split; [done|]);
      unfold run_code_review, run_release_prep; by rewrite Himp. }
  by rewrite (process_handler_raises _ _ _ _ H).
Qed.

Lemma import_failure_stops_the_run_witness :
  process {| environ := ∅;
             import_module := fun _ => Fails "No module named 'attune'";
             WorkflowEngine := Gives tt;
             get_workflow := fun name => Gives name;
             subprocess_run := fun _ => Gives Sample.two_files;
             engine_run := fun _ => Gives Sample.report |}
          (Sample.args "code-review" "true") =
    ([Mkdir (Path (output_dir (Sample.args "code-review" "true")));
      ImportModule "attune.workflows";
      WriteText (Path (output_dir (Sample.args "code-review" "true")) </> "summary.md")
        ("## Attune AI - Error" +:+ nl +:+ nl +:+
         "Workflow `" +:+ workflow (Sample.args "code-review" "true") +:+ "` failed:"
         +:+ nl +:+ nl +:+
         "```" +:+ nl +:+ "No module named 'attune'" +:+ nl +:+ "```" +:+ nl);
      Stderr ("::error::Attune workflow failed: " +:+ "No module named 'attune'")], 1).
Proof.
  apply import_failure_stops_the_run.
  - by left.
  - reflexivity.
Defined.

(** X16. If the engine fails on a code-review run with changed files, the
    text of its exception is what the run reports: no report file is written,
    summary.md holds the error summary with that text, the error annotation
    carries it, nothing is published, and the exit status is 1 whatever
    fail-on-critical says. *)
Theorem engine_failure_is_reported w args cp wf text fs :
  workflow args = "code-review" ->
  diff_completes w cp ->
  get_workflow w "code-review" = Gives wf ->
  changed_files_of (stdout cp) <> [] ->
  engine_run w (review_call wf (changed_files_of (stdout cp))) = Fails text ->
  files_written (trace_of w args) = [Path (output_dir args) </> "summary.md"] /\
  replay fs (trace_of w args) !! (Path (output_dir args) </> "summary.md") =
    Some ("## Attune AI - Error" +:+ nl +:+ nl +:+
          "Workflow `code-review` failed:" +:+ nl +:+ nl +:+
          "```" +:+ nl +:+ text +:+ nl +:+ "```" +:+ nl) /\
  stderr_of (trace_of w args) = ["::error::Attune workflow failed: " +:+ text] /\
  (forall p, appended_to p (trace_of w args) = []) /\
  exit_status w args = 1.
Proof.
  intros Hwf (H1 & H2 & H3 & _ & H5) H4 Hne Hrun.
  assert (handler_run w args
            (diff_trace ++ [EngineRun (review_call wf (changed_files_of (stdout cp)))])
            (Raises (Exception text))) as H.
  { exists run_code_review. rewrite Hwf. split; [done|]. unfold run_code_review.
    rewrite H1, H2, H3, H4, H5. simpl.
    destruct (changed_files_of (stdout cp)) as [|f l]; [done|].
    unfold review_call in Hrun. by rewrite Hrun. }
  unfold trace_of, exit_status. rewrite (process_handler_raises _ _ _ _ H), Hwf. simpl.
  repeat split; try done.
  rewrite lookup_insert_eq. done.
Qed.

Lemma engine_failure_is_reported_witness :
  files_written
    (trace_of (Sample.world (Gives Sample.two_files) (Fails "rate limited") None)
              (Sample.args "code-review" "false")) =
    [Path (output_dir (Sample.args "code-review" "false")) </> "summary.md"] /\
  replay ∅ (trace_of (Sample.world (Gives Sample.two_files) (Fails "rate limited") None)
                     (Sample.args "code-review" "false"))
    !! (Path (output_dir (Sample.args "code-review" "false")) </> "summary.md") =
    Some ("## Attune AI - Error" +:+ nl +:+ nl +:+
          "Workflow `code-review` failed:" +:+ nl +:+ nl +:+
          "```" +:+ nl +:+ "rate limited" +:+ nl +:+ "```" +:+ nl) /\
  stderr_of (trace_of (Sample.world (Gives Sample.two_files) (Fails "rate limited") None)
                      (Sample.args "code-review" "false")) =
    ["::error::Attune workflow failed: " +:+ "rate limited"] /\
  (forall p,
     appended_to p
       (trace_of (Sample.world (Gives Sample.two_files) (Fails "rate limited") None)
                 (Sample.args "code-review" "false")) = []) /\
  exit_status (Sample.world (Gives Sample.two_files) (Fails "rate limited") None)
              (Sample.args "code-review" "false") = 1.
Proof.
  apply (engine_failure_is_reported _ _ Sample.two_files "code-review").
  - reflexivity.
  - repeat split. by exists "code-review".
  - reflexivity.
  - discriminate.
  - reflexivity.
Defined.

(** ** Records of one line *)

Lemma has_char_app c s1 s2 :
  has_char c (s1 +:+ s2) = has_char c s1 || has_char c s2.
Proof.
  induction s1 as [|a s1 IH]; [done|].
  rewrite append_cons. simpl. by rewrite IH, orb_assoc.
Qed.

Lemma pretty_N_char_not_nl x : Ascii.eqb (pretty_N_char x) "010" = false.
Proof. unfold pretty_N_char. by repeat case_match. Qed.

Lemma pretty_N_go_no_nl x s :
  has_char "010" s = false -> has_char "010" (pretty_N_go x s) = false.
Proof.
  revert s. induction (N.lt_wf_0 x) as [x _ IH]; intros s Hs.
  destruct (decide (x = 0)%N) as [->|Hx]; [by rewrite pretty_N_go_0|].
  rewrite pretty_N_go_step by lia. apply IH.
  - apply N.div_lt; lia.
  - simpl. by rewrite pretty_N_char_not_nl.
Qed.

Lemma pretty_N_no_nl (x : N) : has_char "010" (pretty x) = false.
Proof.
  unfold pretty, pretty_N. case_decide; [done|]. by apply pretty_N_go_no_nl.
Qed.

Lemma pretty_nat_no_nl (x : nat) : has_char "010" (pretty x) = false.
Proof. apply pretty_N_no_nl. Qed.

Lemma pretty_Z_no_nl (x : Z) : has_char "010" (pretty x) = false.
Proof.
  destruct x as [|p|p]; [done| |].
  - apply (pretty_N_no_nl (Npos p)).
  - change (pretty (Z.neg p)) with ("-" +:+ pretty (Npos p)).
    rewrite has_char_app. simpl. apply (pretty_N_no_nl (Npos p)).
Qed.

(** X17. The summary and the issue count of a returned result never hold a
    line feed, so the [summary=] and [issues_found=] records that publication
    appends are one line each. *)
Theorem summary_and_issue_count_are_one_line w args t res :
  handler_run w args t (Returns res) ->
  exists s i,
    res !! "summary" = Some (PyStr s) /\
    res !! "issues_found" = Some (PyInt i) /\
    has_char "010" ("summary=" +:+ s) = false /\
    has_char "010" ("issues_found=" +:+ pretty i) = false.
Proof.
  intros H. apply handler_run_cases in H.
  inversion H as [|? Hname Hc Hcalls| |t0 c0 rep ? Hc Hcalls Hres]; subst.
  - by eexists _, _.
  - destruct Hres as [(_ & files & _ & _ & ->) | (_ & _ & ->)].
    + eexists _, _. split; [reflexivity|]. split; [reflexivity|].
      rewrite !has_char_app.
      change (fstring [pretty (issue_count rep); " issues found in ";
                       pretty (length files); " files"])
        with (pretty (issue_count rep) +:+ " issues found in " +:+
              pretty (length files) +:+ " files").
      by rewrite !has_char_app, !pretty_Z_no_nl, pretty_nat_no_nl.
    + eexists _, _. split; [reflexivity|]. split; [reflexivity|].
      rewrite !has_char_app.
      change (fstring ["Release prep complete: "; pretty (gates_passed rep); "/";
                       pretty (gates_total rep); " gates passed"])
        with ("Release prep complete: " +:+ pretty (gates_passed rep) +:+ "/" +:+
              pretty (gates_total rep) +:+ " gates passed").
      by rewrite !has_char_app, !pretty_Z_no_nl.
Qed.

Lemma summary_and_issue_count_are_one_line_witness :
  exists s i,
    release_prep_result Sample.report !! "summary" = Some (PyStr s) /\
    release_prep_result Sample.report !! "issues_found" = Some (PyInt i) /\
    has_char "010" ("summary=" +:+ s) = false /\
    has_char "010" ("issues_found=" +:+ pretty i) = false.
Proof.
  eapply (summary_and_issue_count_are_one_line
            (Sample.world (Gives Sample.no_output) (Gives Sample.report) None)
            (Sample.args "release-prep" "true")).
  exists run_release_prep. split; reflexivity.
Defined.
